(** * energomonitor-js: the session object and its request marshaling

    A shallow embedding of [src/utils.js] and [src/Energomonitor.js].

    JavaScript values are an inductive type, objects are association lists
    in insertion order (the order in which [JSON.stringify] and the query
    serializer visit the keys), and the HTTP transport (axios) is a function
    from the request it is handed to the response it gives.  A method call
    is followed up to the point where its promise settles, so a promise is
    the outcome it settles to and calls do not overlap.  The axios instances
    live in a store addressed by references, because the constructor writes
    into an instance that the caller may still hold. *)

From Stdlib Require Import ZArith QArith Qround Lia List Ascii String.
From stdpp Require Import base gmap strings pretty.
Import ListNotations.

Local Set Warnings "-register-all".
Local Open Scope string_scope.
Local Open Scope Z_scope.

(** ** JavaScript values *)

(** Numbers are the integer-valued ones and [NaN]: identifiers, channels,
    limits, minutes and timestamps.  [-0] is not told apart from [0] (both
    print as ["0"]); fractions, which no request of this library needs, are
    left out. *)
Inductive JsValue : Type :=
| JUndefined
| JNull
| JBool (b : bool)
| JNum (n : Z)
| JNaN
| JStr (s : string)
| JArr (elems : list JsValue)
| JObj (props : list (string * JsValue)).

Abbreviation JsObject := (list (string * JsValue)).

(** [v !== undefined] *)
Definition is_defined (v : JsValue) : bool :=
  match v with JUndefined => false | _ => true end.

(** [o[k]] on an object literal: the value of the first entry under [k]. *)
Fixpoint obj_get (k : string) (o : JsObject) : JsValue :=
  match o with
  | [] => JUndefined
  | (k', v) :: o' => if String.eqb k k' then v else obj_get k o'
  end.

(** [o[k] = v]: an existing key keeps its place, a new one goes last. *)
Fixpoint obj_set (k : string) (v : JsValue) (o : JsObject) : JsObject :=
  match o with
  | [] => [(k, v)]
  | (k', v') :: o' =>
      if String.eqb k k' then (k, v) :: o' else (k', v') :: obj_set k v o'
  end.

Definition obj_keys (o : JsObject) : list string := map fst o.

(** The errors the language itself raises. *)
Inductive NativeError : Type := TypeError | RangeError.

(** [v.k]: reading a property of [undefined] or [null] throws; a primitive
    or an array has no own property of the names used here. *)
Definition get_prop (v : JsValue) (k : string) : NativeError + JsValue :=
  match v with
  | JUndefined | JNull => inl TypeError
  | JObj o => inr (obj_get k o)
  | _ => inr JUndefined
  end.

(** [String(v)], as a template literal applies it, for the values on which
    the conversion returns: an integer prints in decimal, an array joins its
    elements with commas ([undefined] and [null] elements giving the empty
    string), an object answers with [Object.prototype.toString].  Where the
    conversion throws, and which numbers print in this way, is settled by
    [throws_on_toString] and [js_toString_exact] below. *)
Fixpoint js_toString (v : JsValue) : string :=
  match v with
  | JUndefined => "undefined"
  | JNull => "null"
  | JBool true => "true"
  | JBool false => "false"
  | JNum n => pretty n
  | JNaN => "NaN"
  | JStr s => s
  | JArr l =>
      String.concat ","
        (map (fun e => match e with
                       | JUndefined | JNull => ""
                       | _ => js_toString e
                       end) l)
  | JObj _ => "[object Object]"
  end.

(** Whether [String(v)] throws a [TypeError].  The entries of an object are
    its own data properties, as [JSON.parse] builds them, and none of them is
    callable: an own [toString] hides [Object.prototype.toString], after
    which neither it nor [valueOf] (own, or the inherited one, which returns
    the object) gives a primitive.  An array converts its elements, except
    [undefined] and [null], with the same operation. *)
Fixpoint throws_on_toString (v : JsValue) : bool :=
  match v with
  | JArr l => existsb throws_on_toString l
  | JObj props => existsb (String.eqb "toString") (map fst props)
  | _ => false
  end.

(** [Number.MAX_SAFE_INTEGER], 2^53 - 1. *)
Definition MAX_SAFE_INTEGER : Z := 9007199254740991.

(** An integer up to [MAX_SAFE_INTEGER] in magnitude is a number of the
    language and prints with all its decimal digits.  Above it not every
    integer is a number, the digits printed are the shortest that tell the
    number from its neighbours, and from 1e21 on the form has an exponent. *)
Definition safe_integer (n : Z) : bool := Z.abs n <=? MAX_SAFE_INTEGER.

(** The numbers that the conversion of [v] prints are safe integers (those
    inside an object are not printed). *)
Fixpoint safe_numbers (v : JsValue) : bool :=
  match v with
  | JNum n => safe_integer n
  | JArr l => forallb safe_numbers l
  | _ => true
  end.

(** [js_toString v] is what [String(v)] returns: the conversion does not
    throw and prints only safe integers. *)
Definition js_toString_exact (v : JsValue) : bool :=
  negb (throws_on_toString v) && safe_numbers v.

(** ** Dates *)

(** A [Date] holds a time value: milliseconds since the epoch, or [NaN]
    (an invalid date, as [new Date(NaN)] or [new Date("garbage")] build). *)
Inductive JsDate : Type :=
| DateOf (tv : Z)
| InvalidDate.

(** [date.getTime()] *)
Definition getTime (d : JsDate) : option Z :=
  match d with DateOf t => Some t | InvalidDate => None end.

(** The day and time arithmetic of the language standard (ECMA-262, "Time
    Values and Time Range"), which [toISOString] and [Date.UTC] are defined
    by.  Division is the flooring one. *)
Module ES.
Definition msPerDay : Z := 86400000.
Definition msPerHour : Z := 3600000.
Definition msPerMinute : Z := 60000.
Definition msPerSecond : Z := 1000.

Definition Day (t : Z) : Z := t / msPerDay.
Definition TimeWithinDay (t : Z) : Z := t mod msPerDay.

Definition DaysInYear (y : Z) : Z :=
  if negb (y mod 4 =? 0) then 365
  else if negb (y mod 100 =? 0) then 366
  else if negb (y mod 400 =? 0) then 365
  else 366.

Definition DayFromYear (y : Z) : Z :=
  365 * (y - 1970) + (y - 1969) / 4 - (y - 1901) / 100 + (y - 1601) / 400.

Definition TimeFromYear (y : Z) : Z := msPerDay * DayFromYear y.

(** The standard asks for the largest [y] with [TimeFromYear y <= t]; this
    estimates it from the mean length of a year and corrects by one
    ([YearFromTime_largest] below shows it is that year). *)
Definition YearFromTime (t : Z) : Z :=
  let d := Day t in
  let y := 1970 + 400 * d / 146097 in
  if d <? DayFromYear y then y - 1
  else if DayFromYear (y + 1) <=? d then y + 1
  else y.

Definition InLeapYear (t : Z) : Z :=
  if DaysInYear (YearFromTime t) =? 366 then 1 else 0.

Definition DayWithinYear (t : Z) : Z := Day t - DayFromYear (YearFromTime t).

Definition MonthFromTime (t : Z) : Z :=
  let d := DayWithinYear t in
  let L := InLeapYear t in
  if d <? 31 then 0
  else if d <? 59 + L then 1
  else if d <? 90 + L then 2
  else if d <? 120 + L then 3
  else if d <? 151 + L then 4
  else if d <? 181 + L then 5
  else if d <? 212 + L then 6
  else if d <? 243 + L then 7
  else if d <? 273 + L then 8
  else if d <? 304 + L then 9
  else if d <? 334 + L then 10
  else 11.

Definition DateFromTime (t : Z) : Z :=
  let d := DayWithinYear t in
  let L := InLeapYear t in
  match MonthFromTime t with
  | 0 => d + 1
  | 1 => d - 30
  | 2 => d - 58 - L
  | 3 => d - 89 - L
  | 4 => d - 119 - L
  | 5 => d - 150 - L
  | 6 => d - 180 - L
  | 7 => d - 211 - L
  | 8 => d - 242 - L
  | 9 => d - 272 - L
  | 10 => d - 303 - L
  | _ => d - 333 - L
  end.

Definition HourFromTime (t : Z) : Z := (t / msPerHour) mod 24.
Definition MinFromTime (t : Z) : Z := (t / msPerMinute) mod 60.
Definition SecFromTime (t : Z) : Z := (t / msPerSecond) mod 60.
Definition msFromTime (t : Z) : Z := t mod msPerSecond.

Definition MakeTime (hour min sec ms : Z) : Z :=
  hour * msPerHour + min * msPerMinute + sec * msPerSecond + ms.

(** The day number of the first of month [mn] of year [ym], plus
    [date - 1]. *)
Definition MakeDay (year month date : Z) : Z :=
  let ym := year + month / 12 in
  let mn := month mod 12 in
  let L := if DaysInYear ym =? 366 then 1 else 0 in
  let first :=
    match mn with
    | 0 => 0 | 1 => 31 | 2 => 59 + L | 3 => 90 + L | 4 => 120 + L
    | 5 => 151 + L | 6 => 181 + L | 7 => 212 + L | 8 => 243 + L
    | 9 => 273 + L | 10 => 304 + L | _ => 334 + L
    end in
  DayFromYear ym + first + date - 1.

Definition MakeDate (day time : Z) : Z := day * msPerDay + time.

Definition TimeClip (time : Z) : JsDate :=
  if Z.abs time <=? 8640000000000000 then DateOf time else InvalidDate.

(** [new Date(Date.UTC(year, month, date, hours, minutes, seconds, ms))] *)
Definition Date_UTC (year month date hours minutes seconds ms : Z) : JsDate :=
  let yr := if (0 <=? year) && (year <=? 99) then 1900 + year else year in
  TimeClip (MakeDate (MakeDay yr month date) (MakeTime hours minutes seconds ms)).

(** The last [w] decimal digits of [n], most significant first. *)
Fixpoint pad_go (w : nat) (n : Z) (acc : string) : string :=
  match w with
  | O => acc
  | S w' => pad_go w' (n / 10) (String (pretty_N_char (Z.to_N (n mod 10))) acc)
  end.
Definition pad (w : nat) (n : Z) : string := pad_go w n "".

(** The number a string of decimal digits writes, after [acc]. *)
Fixpoint digits_value (s : string) (acc : Z) : Z :=
  match s with
  | EmptyString => acc
  | String c s' => digits_value s' (10 * acc + (Z.of_N (N_of_ascii c) - 48))
  end.

(** Four digits for the years 0 to 9999, a sign and six digits otherwise. *)
Definition year_string (y : Z) : string :=
  if (0 <=? y) && (y <=? 9999) then pad 4 y
  else (if y <? 0 then "-" else "+") +:+ pad 6 (Z.abs y).

Definition iso_string (year month date hour min sec ms : Z) : string :=
  year_string year +:+ "-" +:+ pad 2 month +:+ "-" +:+ pad 2 date +:+ "T" +:+
  pad 2 hour +:+ ":" +:+ pad 2 min +:+ ":" +:+ pad 2 sec +:+ "." +:+
  pad 3 ms +:+ "Z".

(** [date.toISOString()]: a [RangeError] on an invalid date. *)
Definition toISOString (date : JsDate) : NativeError + string :=
  match date with
  | InvalidDate => inl RangeError
  | DateOf t =>
      inr (iso_string (YearFromTime t) (MonthFromTime t + 1) (DateFromTime t)
             (HourFromTime t) (MinFromTime t) (SecFromTime t) (msFromTime t))
  end.
End ES.

(** [Math.round]: the nearest integer, a tie going up. *)
Definition Math_round (x : Q) : Z := Qfloor (x + (1 # 2)).

(** ** utils.js *)

Definition Headers := list (string * string).

(** The headers object for a token whose string conversion returns; on one
    for which [throws_on_toString] holds the template literal throws, which
    [authorize] below meets in a reply. *)
Definition buildAuthorizedRequestHeaders (token : JsValue) : Headers :=
  [("Content-Type", "application/json");
   ("Authorization", "Bearer " +:+ js_toString token)].

(** [Math.round(date.getTime() / 1000)], and [NaN] for an invalid date.  The
    time value of a date is an integer of magnitude at most 8.64e15, so the
    exact quotient is a multiple of 1/1000 below 2^43, and the double that
    the division yields is within 2^-11 of it.  Every integer and every
    integer and a half of that size is a double, so the double lies on the
    same side of each of them as the exact quotient, and [Math.round] of the
    double is the rounding of the exact quotient, which is what is written
    here. *)
Definition dateToTimestamp (date : JsDate) : JsValue :=
  match getTime date with
  | Some t => JNum (Math_round (inject_Z t / inject_Z 1000))
  | None => JNaN
  end.

Definition NOT_AUTHORIZED : string :=
  "Cannot call this method without setting the authorization token " +:+
  "(in the constructor or using the authorize method).".

Section Gate.
(** What the thunk [f] returns is up to the caller. *)
Context {A : Type} (Promise_reject : JsValue -> A).

Definition authorizedApiRequest (token : JsValue) (f : unit -> A) : A :=
  match token with
  | JUndefined => Promise_reject (JStr NOT_AUTHORIZED)
  | _ => f tt
  end.
End Gate.

(** ** The query serializer *)

(** [qs.stringify(params, { indices: false })] of the qs library, which is
    not part of this repository: modelled after the library's [stringify]
    and [utils.encode].  With [indices: false] an array hands its own key on
    to each of its elements; a nested object appends [[key]]; [undefined] is
    skipped, [null] gives an empty value.  Strings are sequences of UTF-8
    bytes, and every byte outside the unreserved set is percent-escaped. *)
Module qs.
Definition unreserved (c : ascii) : bool :=
  let n := N_of_ascii c in
  ((48 <=? n) && (n <=? 57) || (65 <=? n) && (n <=? 90) ||
   (97 <=? n) && (n <=? 122) ||
   (n =? 45) || (n =? 46) || (n =? 95) || (n =? 126))%N.

Definition hex_digit (n : N) : ascii :=
  match n with
  | 0 => "0" | 1 => "1" | 2 => "2" | 3 => "3" | 4 => "4" | 5 => "5"
  | 6 => "6" | 7 => "7" | 8 => "8" | 9 => "9" | 10 => "A" | 11 => "B"
  | 12 => "C" | 13 => "D" | 14 => "E" | _ => "F"
  end%char%N.

Fixpoint encode (str : string) : string :=
  match str with
  | EmptyString => EmptyString
  | String c rest =>
      if unreserved c then String c (encode rest)
      else
        let n := N_of_ascii c in
        String "%" (String (hex_digit (n / 16)) (String (hex_digit (n mod 16))
          (encode rest)))%N
  end.

Fixpoint stringify (prefix : string) (obj : JsValue) : list string :=
  match obj with
  | JUndefined => []
  | JNull => [encode prefix +:+ "="]
  | JArr elems => flat_map (stringify prefix) elems
  | JObj props =>
      flat_map (fun kv => stringify (prefix +:+ "[" +:+ kv.1 +:+ "]") kv.2) props
  | _ => [encode prefix +:+ "=" +:+ encode (js_toString obj)]
  end.

Definition stringify_no_indices (params : JsObject) : string :=
  String.concat "&" (flat_map (fun kv => stringify kv.1 kv.2) params).
End qs.

(** ** The transport *)

Record AxiosRequestConfig : Type := {
  headers : option Headers;
  params : option JsObject;
  paramsSerializer : option (JsObject -> string);
  auth : option (JsValue * JsValue)   (* username, password *)
}.

(** The three calls the session makes on its axios instance. *)
Inductive Request : Type :=
| axios_get (url : string) (config : AxiosRequestConfig)
| axios_post (url : string) (data : JsValue) (config : AxiosRequestConfig)
| axios_patch (url : string) (data : JsValue) (config : AxiosRequestConfig).

Definition config_of (r : Request) : AxiosRequestConfig :=
  match r with
  | axios_get _ c | axios_post _ _ c | axios_patch _ _ c => c
  end.

(** What the promise of a call settles to: a response, of which the code
    only reads [data], or a failure. *)
Inductive Response : Type :=
| Reply (data : JsValue)
| Failure (error : JsValue).

(** [config.params], an empty object when there is none. *)
Definition default_params (c : AxiosRequestConfig) : JsObject :=
  match params c with
  | Some p => p
  | None => []
  end.

(** The query string axios puts on the wire: the request's own serializer
    when it has one, the transport's default otherwise. *)
Definition query_string (default : JsObject -> string) (c : AxiosRequestConfig)
  : string :=
  match params c with
  | None => ""
  | Some p =>
      match paramsSerializer c with
      | Some serialize => serialize p
      | None => default p
      end
  end.

(** References to axios instances, and what an instance holds. *)
Abbreviation ref := positive.

Record AxiosInstance : Type := { defaults : JsObject }.

(** ** Energomonitor.js *)

Module ENDPOINT_URLS.
Definition auth : string := "/authorizations".
Definition user (userId : JsValue) : string := "/users/" +:+ js_toString userId.
Definition feeds (userId : JsValue) : string :=
  "/users/" +:+ js_toString userId +:+ "/feeds".
Definition feed (feedId : JsValue) : string := "/feeds/" +:+ js_toString feedId.
Definition streams (feedId : JsValue) : string :=
  "/feeds/" +:+ js_toString feedId +:+ "/streams".
Definition stream (feedId streamId : JsValue) : string :=
  "/feeds/" +:+ js_toString feedId +:+ "/streams/" +:+ js_toString streamId.
Definition streamData (feedId streamId : JsValue) : string :=
  "/feeds/" +:+ js_toString feedId +:+ "/streams/" +:+ js_toString streamId +:+
  "/data".
Definition relatedStreams (feedId : JsValue) : string :=
  "/feeds/" +:+ js_toString feedId +:+ "/related_streams".
Definition notifications (userId : JsValue) : string :=
  "/users/" +:+ js_toString userId +:+ "/notifications".
Definition notification (userId notificationId : JsValue) : string :=
  "/users/" +:+ js_toString userId +:+ "/notifications/" +:+
  js_toString notificationId.
Definition notificationCount (userId : JsValue) : string :=
  "/users/" +:+ js_toString userId +:+ "/notification_count".
End ENDPOINT_URLS.

(** The fields of an [Energomonitor] object. *)
Record Session : Type := {
  _token : JsValue;
  _authorizedRequestHeaders : Headers;
  _axios : ref
}.

(** What a method call comes to: the promise it returns settles, or the
    call itself throws before any promise exists. *)
Inductive Outcome : Type :=
| Resolves (value : JsValue)
| Rejects (reason : JsValue)
| RejectsWith (e : NativeError)   (* raised inside a [then] callback *)
| Throws (e : NativeError).

(** A method runs against the transport, reads and writes the fields of
    [this] and leaves the calls it made on its axios instance in [sent]. *)
Record State : Type := {
  this : Session;
  sent : list (ref * Request)
}.

Definition Transport : Type := ref -> Request -> Response.

Definition M (A : Type) : Type := Transport -> State -> A * State.

#[local] Instance M_ret : MRet M := fun A a _ st => (a, st).

#[local] Instance M_bind : MBind M := fun A B k m net st =>
  let (a, st') := m net st in k a net st'.

Definition get_this : M Session := fun _ st => (this st, st).

Definition set_token (token : JsValue) : M unit := fun _ st =>
  (tt, {| this := {| _token := token;
                     _authorizedRequestHeaders := _authorizedRequestHeaders (this st);
                     _axios := _axios (this st) |};
          sent := sent st |}).

Definition set_authorizedRequestHeaders (h : Headers) : M unit := fun _ st =>
  (tt, {| this := {| _token := _token (this st);
                     _authorizedRequestHeaders := h;
                     _axios := _axios (this st) |};
          sent := sent st |}).

(** [this._axios.get(...)], [.post(...)], [.patch(...)] *)
Definition call_axios (r : Request) : M Response := fun net st =>
  (net (_axios (this st)) r,
   {| this := this st; sent := sent st ++ [(_axios (this st), r)] |}).

(** [promise.then(callback)]: a failure passes through untouched. *)
Definition promise_then (r : Response) (callback : JsValue -> M Outcome)
  : M Outcome :=
  match r with
  | Reply data => callback data
  | Failure error => mret (Rejects error)
  end.

Definition Promise_reject (reason : JsValue) : M Outcome := mret (Rejects reason).

(** [if (x !== undefined) o[k] = x] *)
Definition set_if_defined (k : string) (x : JsValue) (o : JsObject) : JsObject :=
  if is_defined x then obj_set k x o else o.

(** The same for an optional [Date] argument and its conversion. *)
Definition set_if_date (k : string) (convert : JsDate -> JsValue)
    (x : option JsDate) (o : JsObject) : JsObject :=
  match x with
  | Some d => obj_set k (convert d) o
  | None => o
  end.

(** [{ headers: h }] *)
Definition only_headers (h : Headers) : AxiosRequestConfig :=
  {| headers := Some h; params := None; paramsSerializer := None; auth := None |}.

(** [{ headers: h, params: p }] *)
Definition headers_and_params (h : Headers) (p : JsObject) : AxiosRequestConfig :=
  {| headers := Some h; params := Some p; paramsSerializer := None; auth := None |}.

Definition authorize_data (note resources validMinutes : JsValue) : JsObject :=
  let data := [] in
  let data := set_if_defined "note" note data in
  let data := set_if_defined "resources" resources data in
  let data := set_if_defined "valid_minutes" validMinutes data in
  data.

(** The request [authorize] hands to [this._axios.post]. *)
Definition authorize_request (username password note resources validMinutes : JsValue)
  : Request :=
  let url := ENDPOINT_URLS.auth in
  let data := authorize_data note resources validMinutes in
  let config :=
    {| headers := None; params := None; paramsSerializer := None;
       auth := Some (username, password) |} in
  axios_post url (JObj data) config.

(** The body of the reply is whatever the server sent.  Its [token] is
    stored first; the headers are built from it next, and where the string
    conversion of the token throws, the throw inside [then] rejects the
    promise with the new token stored beside the old headers. *)
Definition authorize (username password note resources validMinutes : JsValue)
  : M Outcome :=
  response ← call_axios (authorize_request username password note resources validMinutes);
  promise_then response (fun response_data =>
    match get_prop response_data "token" with
    | inl e => mret (RejectsWith e)
    | inr token =>
        set_token token;;
        if throws_on_toString token then mret (RejectsWith TypeError)
        else
          set_authorizedRequestHeaders (buildAuthorizedRequestHeaders token);;
          mret (Resolves response_data)
    end).

Definition getUser (userId : JsValue) : M Outcome :=
  let url := ENDPOINT_URLS.user userId in
  this ← get_this;
  let config := only_headers (_authorizedRequestHeaders this) in
  authorizedApiRequest Promise_reject (_token this) (fun _ =>
    response ← call_axios (axios_get url config);
    promise_then response (fun response_data => mret (Resolves response_data))).

Definition getFeeds (userId : JsValue) : M Outcome :=
  let url := ENDPOINT_URLS.feeds userId in
  this ← get_this;
  let config := only_headers (_authorizedRequestHeaders this) in
  authorizedApiRequest Promise_reject (_token this) (fun _ =>
    response ← call_axios (axios_get url config);
    promise_then response (fun response_data => mret (Resolves response_data))).

Definition getFeed (feedId : JsValue) : M Outcome :=
  let url := ENDPOINT_URLS.feed feedId in
  this ← get_this;
  let config := only_headers (_authorizedRequestHeaders this) in
  authorizedApiRequest Promise_reject (_token this) (fun _ =>
    response ← call_axios (axios_get url config);
    promise_then response (fun response_data => mret (Resolves response_data))).

Definition getStreams_params (types channels : JsValue)
    (dataTimeFrom dataTimeTo : option JsDate) : JsObject :=
  let params := [] in
  let params := set_if_defined "type" types params in
  let params := set_if_defined "channel" channels params in
  let params := set_if_date "data_time_from" dateToTimestamp dataTimeFrom params in
  let params := set_if_date "data_time_to" dateToTimestamp dataTimeTo params in
  params.

Definition getStreams (feedId types channels : JsValue)
    (dataTimeFrom dataTimeTo : option JsDate) : M Outcome :=
  let url := ENDPOINT_URLS.streams feedId in
  let params := getStreams_params types channels dataTimeFrom dataTimeTo in
  this ← get_this;
  let config :=
    {| headers := Some (_authorizedRequestHeaders this);
       params := Some params;
       paramsSerializer := Some qs.stringify_no_indices;
       auth := None |} in
  authorizedApiRequest Promise_reject (_token this) (fun _ =>
    response ← call_axios (axios_get url config);
    promise_then response (fun response_data => mret (Resolves response_data))).

Definition getStream (feedId streamId : JsValue) : M Outcome :=
  let url := ENDPOINT_URLS.stream feedId streamId in
  this ← get_this;
  let config := only_headers (_authorizedRequestHeaders this) in
  authorizedApiRequest Promise_reject (_token this) (fun _ =>
    response ← call_axios (axios_get url config);
    promise_then response (fun response_data => mret (Resolves response_data))).

Definition getStreamData_params (timeFrom timeTo : option JsDate) (limit : JsValue)
  : JsObject :=
  let params := [] in
  let params := set_if_defined "limit" limit params in
  let params := set_if_date "time_from" dateToTimestamp timeFrom params in
  let params := set_if_date "time_to" dateToTimestamp timeTo params in
  params.

Definition getStreamData (feedId streamId : JsValue)
    (timeFrom timeTo : option JsDate) (limit : JsValue) : M Outcome :=
  let url := ENDPOINT_URLS.streamData feedId streamId in
  let params := getStreamData_params timeFrom timeTo limit in
  this ← get_this;
  let config := headers_and_params (_authorizedRequestHeaders this) params in
  authorizedApiRequest Promise_reject (_token this) (fun _ =>
    response ← call_axios (axios_get url config);
    promise_then response (fun response_data => mret (Resolves response_data))).

Definition getRelatedStreams (feedId : JsValue) : M Outcome :=
  let url := ENDPOINT_URLS.relatedStreams feedId in
  this ← get_this;
  let config := only_headers (_authorizedRequestHeaders this) in
  authorizedApiRequest Promise_reject (_token this) (fun _ =>
    response ← call_axios (axios_get url config);
    promise_then response (fun response_data => mret (Resolves response_data))).

(** [createdAtFrom.toISOString()] runs while the parameters are built, ahead
    of the gate: when it throws, so does the call. *)
Definition getNotifications_params (createdAtFrom : option JsDate)
  : NativeError + JsObject :=
  let params := [] in
  match createdAtFrom with
  | Some d =>
      match ES.toISOString d with
      | inr iso => inr (obj_set "created_at_from" (JStr iso) params)
      | inl e => inl e
      end
  | None => inr params
  end.

Definition getNotifications (userId : JsValue) (createdAtFrom : option JsDate)
  : M Outcome :=
  let url := ENDPOINT_URLS.notifications userId in
  match getNotifications_params createdAtFrom with
  | inl e => mret (Throws e)
  | inr params =>
      this ← get_this;
      let config := headers_and_params (_authorizedRequestHeaders this) params in
    authorizedApiRequest Promise_reject (_token this) (fun _ =>
        response ← call_axios (axios_get url config);
        promise_then response (fun response_data => mret (Resolves response_data)))
  end.

Definition getNotification (userId notificationId : JsValue) : M Outcome :=
  let url := ENDPOINT_URLS.notification userId notificationId in
  this ← get_this;
  let config := only_headers (_authorizedRequestHeaders this) in
  authorizedApiRequest Promise_reject (_token this) (fun _ =>
    response ← call_axios (axios_get url config);
    promise_then response (fun response_data => mret (Resolves response_data))).

Definition updateNotifications (userId data : JsValue) : M Outcome :=
  let url := ENDPOINT_URLS.notifications userId in
  this ← get_this;
  let config := only_headers (_authorizedRequestHeaders this) in
  authorizedApiRequest Promise_reject (_token this) (fun _ =>
    response ← call_axios (axios_patch url data config);
    promise_then response (fun _ => mret (Resolves JNull))).

Definition updateNotification (userId notificationId data : JsValue) : M Outcome :=
  let url := ENDPOINT_URLS.notification userId notificationId in
  this ← get_this;
  let config := only_headers (_authorizedRequestHeaders this) in
  authorizedApiRequest Promise_reject (_token this) (fun _ =>
    response ← call_axios (axios_patch url data config);
    promise_then response (fun response_data => mret (Resolves response_data))).

Definition getNotificationCount (userId : JsValue) : M Outcome :=
  let url := ENDPOINT_URLS.notificationCount userId in
  this ← get_this;
  let config := only_headers (_authorizedRequestHeaders this) in
  authorizedApiRequest Promise_reject (_token this) (fun _ =>
    response ← call_axios (axios_get url config);
    promise_then response (fun response_data => mret (Resolves response_data))).

Definition getAxiosInstance : M ref :=
  this ← get_this; mret (_axios this).

(** *** The constructor *)

Definition DEFAULT_API_URL : string := "https://api.energomonitor.com/v1".

Section Constructor.
(** The [defaults] a new axios instance starts with, which are the axios
    library's business. *)
Variable axios_defaults : JsObject.

(** [axios.create()] *)
Definition axios_create (store : gmap ref AxiosInstance)
  : ref * gmap ref AxiosInstance :=
  let r := fresh (dom store) in
  (r, <[r := {| defaults := axios_defaults |}]> store).

(** [new Energomonitor(token, axiosInstance, apiURL)]; an argument left out
    is [undefined] ([None] for the instance), and the default value of
    [apiURL] stands in for [undefined] only.  The token is one whose string
    conversion returns (its documented type is a string): on a token for
    which [throws_on_toString] holds the headers cannot be built and no
    session comes to be. *)
Definition constructor (token : JsValue) (axiosInstance : option ref)
    (apiURL : JsValue) (store : gmap ref AxiosInstance)
  : Session * gmap ref AxiosInstance :=
  let apiURL := if is_defined apiURL then apiURL else JStr DEFAULT_API_URL in
  let (axios, store) :=
    match axiosInstance with
    | Some instance => (instance, store)
    | None => axios_create store
    end in
  ({| _token := token;
      _authorizedRequestHeaders := buildAuthorizedRequestHeaders token;
      _axios := axios |},
   alter (fun i => {| defaults := obj_set "baseURL" apiURL (defaults i) |})
     axios store).
End Constructor.

(** *** Calls and runs *)

(** A call of a method with arguments of the documented types: a date
    argument is a [Date] or is left out.  (Any other value in its place,
    [null], a string or a number, has no [getTime] or [toISOString] to call,
    and the method throws a [TypeError] while it builds its parameters.) *)
Inductive Call : Type :=
| call_authorize (username password note resources validMinutes : JsValue)
| call_getUser (userId : JsValue)
| call_getFeeds (userId : JsValue)
| call_getFeed (feedId : JsValue)
| call_getStreams (feedId types channels : JsValue)
    (dataTimeFrom dataTimeTo : option JsDate)
| call_getStream (feedId streamId : JsValue)
| call_getStreamData (feedId streamId : JsValue)
    (timeFrom timeTo : option JsDate) (limit : JsValue)
| call_getRelatedStreams (feedId : JsValue)
| call_getNotifications (userId : JsValue) (createdAtFrom : option JsDate)
| call_getNotification (userId notificationId : JsValue)
| call_updateNotifications (userId data : JsValue)
| call_updateNotification (userId notificationId data : JsValue)
| call_getNotificationCount (userId : JsValue).

Definition invoke (c : Call) : M Outcome :=
  match c with
  | call_authorize u p n r v => authorize u p n r v
  | call_getUser u => getUser u
  | call_getFeeds u => getFeeds u
  | call_getFeed f => getFeed f
  | call_getStreams f t c from to => getStreams f t c from to
  | call_getStream f s => getStream f s
  | call_getStreamData f s from to l => getStreamData f s from to l
  | call_getRelatedStreams f => getRelatedStreams f
  | call_getNotifications u from => getNotifications u from
  | call_getNotification u n => getNotification u n
  | call_updateNotifications u d => updateNotifications u d
  | call_updateNotification u n d => updateNotification u n d
  | call_getNotificationCount u => getNotificationCount u
  end.

Definition is_authorize (c : Call) : bool :=
  match c with call_authorize _ _ _ _ _ => true | _ => false end.

(** Whether the arguments of a call get through the building of its
    parameters: among the calls above, with dates for date arguments, only
    [toISOString] on an invalid date does not. *)
Definition marshals (c : Call) : bool :=
  match c with
  | call_getNotifications _ (Some InvalidDate) => false
  | _ => true
  end.

(** The identifiers a call puts into its path. *)
Definition identifiers (c : Call) : list JsValue :=
  match c with
  | call_authorize _ _ _ _ _ => []
  | call_getUser userId => [userId]
  | call_getFeeds userId => [userId]
  | call_getFeed feedId => [feedId]
  | call_getStreams feedId _ _ _ _ => [feedId]
  | call_getStream feedId streamId => [feedId; streamId]
  | call_getStreamData feedId streamId _ _ _ => [feedId; streamId]
  | call_getRelatedStreams feedId => [feedId]
  | call_getNotifications userId _ => [userId]
  | call_getNotification userId notificationId => [userId; notificationId]
  | call_updateNotifications userId _ => [userId]
  | call_updateNotification userId notificationId _ => [userId; notificationId]
  | call_getNotificationCount userId => [userId]
  end.

(** Whether a call gets as far as the gate.  A method builds its path and
    its parameters first: the template literal of the path must not throw on
    an identifier (identifiers are documented as strings, on which it never
    does), and the arguments must marshal. *)
Definition reaches_gate (c : Call) : bool :=
  forallb (fun id => negb (throws_on_toString id)) (identifiers c) && marshals c.

(** The response an [authorize] call gets, if [c] is one and gets one. *)
Definition authorize_reply (net : Transport) (st : State) (c : Call)
  : option JsValue :=
  match c with
  | call_authorize u p n r v =>
      match net (_axios (this st)) (authorize_request u p n r v) with
      | Reply data => Some data
      | Failure _ => None
      end
  | _ => None
  end.

(** Calls made one after the other, each answered by the transport as it
    is at that moment. *)
Fixpoint run (calls : list (Transport * Call)) (st : State) : State :=
  match calls with
  | [] => st
  | (net, c) :: rest => run rest (invoke c net st).2
  end.

(** *** The builder of the specification *)

(** The specification's [omitUndefinedBuilder]: of the inputs listed with
    their wire keys, the ones that were given, in the order listed.  An
    input left out is [undefined]. *)
Definition omitUndefinedBuilder (inputs : list (string * JsValue)) : JsObject :=
  List.filter (fun kv => is_defined kv.2) inputs.

(** An optional date as such an input, after its conversion. *)
Definition converted (convert : JsDate -> JsValue) (x : option JsDate) : JsValue :=
  match x with
  | Some d => convert d
  | None => JUndefined
  end.

(** *** The fixtures of the test suite *)

(** [new Energomonitor()] and [new Energomonitor('my-token')], each with an
    axios instance of its own, and a mock transport that answers every
    request alike. *)
Definition energomonitorUnauthorized : State :=
  {| this := (constructor [] JUndefined None JUndefined ∅).1; sent := [] |}.

Definition energomonitorAuthorized : State :=
  {| this := (constructor [] (JStr "my-token") None JUndefined ∅).1; sent := [] |}.

Definition mock (answer : Response) : Transport := fun _ _ => answer.

(** [mockData.authorization], as far as the tests look at it. *)
Definition mockData_authorization : JsValue :=
  JObj [("token", JStr "test-123456789")].

(** [axios.create({ baseURL: 'original.url' })], held by the caller under a
    reference of its own. *)
Definition myAxiosInstance : ref := 7%positive.

Definition test_store : gmap ref AxiosInstance :=
  {[ myAxiosInstance := {| defaults := [("baseURL", JStr "original.url")] |} ]}.

(** [new Energomonitor(null)] *)
Definition energomonitorNullToken : State :=
  {| this := (constructor [] JNull None JUndefined ∅).1; sent := [] |}.

(** *** Reading a request *)

Inductive Verb : Type := GET | POST | PATCH.

Definition verb_of (r : Request) : Verb :=
  match r with
  | axios_get _ _ => GET
  | axios_post _ _ _ => POST
  | axios_patch _ _ _ => PATCH
  end.

Definition url_of (r : Request) : string :=
  match r with
  | axios_get url _ | axios_post url _ _ | axios_patch url _ _ => url
  end.

(** Whether a call is one of the two that modify notifications. *)
Definition is_update (c : Call) : bool :=
  match c with
  | call_updateNotifications _ _ | call_updateNotification _ _ _ => true
  | _ => false
  end.

(** The characters of a string. *)
Definition chars (s : string) : list ascii := list_ascii_of_string s.

(** [axios.create({ timeout: 1000, baseURL: 'original.url' })] in the
    caller's hands. *)
Definition configured_store : gmap ref AxiosInstance :=
  {[ myAxiosInstance :=
       {| defaults := [("timeout", JNum 1000); ("baseURL", JStr "original.url")] |} ]}.

(** The characters a query string is made of when all else is escaped:
    the unreserved ones, the percent sign of an escape, and the two
    separators. *)
Definition query_char (c : ascii) : bool :=
  qs.unreserved c || Ascii.eqb c "%" || Ascii.eqb c "=" || Ascii.eqb c "&".

(** * Properties *)

(** ** Objects *)

Lemma obj_get_set (k : string) (v : JsValue) (o : JsObject) :
  obj_get k (obj_set k v o) = v.
Proof.
  induction o as [|[k' v'] o IH]; simpl.
  - now rewrite String.eqb_refl.
  - destruct (String.eqb k k') eqn:E; simpl; rewrite ?String.eqb_refl, ?E; auto.
Qed.

(** ** The gate *)

Lemma authorizedApiRequest_cases {A : Type} (reject : JsValue -> A)
    (token : JsValue) (f : unit -> A) :
  authorizedApiRequest reject token f =
  if is_defined token then f tt else reject (JStr NOT_AUTHORIZED).
Proof. destruct token; reflexivity. Qed.

Ltac run_method :=
  unfold invoke, authorize, getUser, getFeeds, getFeed, getStreams, getStream,
    getStreamData, getRelatedStreams, getNotifications, getNotification,
    updateNotifications, updateNotification, getNotificationCount,
    mbind, M_bind, get_this;
  cbn beta iota delta [this sent _token _authorizedRequestHeaders _axios fst snd];
  rewrite ?authorizedApiRequest_cases;
  unfold Promise_reject, promise_then, call_axios, get_this,
    set_token, set_authorizedRequestHeaders,
    mbind, M_bind, mret, M_ret;
  cbn beta iota delta [this sent _token _authorizedRequestHeaders _axios fst snd].

Example NOT_AUTHORIZED_literal :
  NOT_AUTHORIZED =
  "Cannot call this method without setting the authorization token (in the constructor or using the authorize method).".
Proof. reflexivity. Qed.

(** Without a token, a call of any method but [authorize] changes nothing
    and is answered on the spot. *)
Lemma invoke_without_token (c : Call) (net : Transport) (st : State) :
  is_authorize c = false ->
  _token (this st) = JUndefined ->
  invoke c net st =
  (if marshals c then Rejects (JStr NOT_AUTHORIZED) else Throws RangeError, st).
Proof.
  intros Hc Htok.
  destruct c; try discriminate Hc; run_method; rewrite ?Htok; try reflexivity.
  destruct createdAtFrom as [[t|]|]; simpl; run_method; rewrite ?Htok; reflexivity.
Qed.

(** ** Timestamps *)

Lemma Math_round_div_1000 (t : Z) :
  Math_round (inject_Z t / inject_Z 1000) = (t + 500) / 1000.
Proof.
  unfold Math_round, Qdiv, Qmult, Qplus, Qinv, inject_Z, Qfloor; cbn.
  Z.div_mod_to_equations; lia.
Qed.

Lemma Qfloor_div_1000 (t : Z) : Qfloor (inject_Z t / inject_Z 1000) = t / 1000.
Proof.
  unfold Qdiv, Qmult, Qinv, inject_Z, Qfloor; cbn.
  Z.div_mod_to_equations; lia.
Qed.

(** ** Calendar arithmetic *)

Section Calendar.
Import ES.

Lemma DayFromYear_succ (y : Z) : DayFromYear (y + 1) = DayFromYear y + DaysInYear y.
Proof.
  unfold DayFromYear, DaysInYear.
  destruct (Z.eqb_spec (y mod 4) 0), (Z.eqb_spec (y mod 100) 0),
    (Z.eqb_spec (y mod 400) 0); cbn [negb]; Z.div_mod_to_equations; lia.
Qed.

Lemma DayFromYear_mono (y1 y2 : Z) : y1 <= y2 -> DayFromYear y1 <= DayFromYear y2.
Proof. unfold DayFromYear. intros. Z.div_mod_to_equations. lia. Qed.

Lemma DaysInYear_cases (y : Z) : DaysInYear y = 365 \/ DaysInYear y = 366.
Proof. unfold DaysInYear. repeat (case (negb _)); auto. Qed.

(** The estimate is off by at most one year, which the two tests repair. *)
Lemma YearFromTime_spec (t : Z) :
  DayFromYear (YearFromTime t) <= Day t < DayFromYear (YearFromTime t + 1).
Proof.
  unfold YearFromTime. set (d := Day t). clearbody d.
  set (y := 1970 + 400 * d / 146097).
  assert (DayFromYear (y - 1) <= d)
    by (unfold DayFromYear, y; Z.div_mod_to_equations; lia).
  assert (d < DayFromYear (y + 2))
    by (unfold DayFromYear, y; Z.div_mod_to_equations; lia).
  destruct (Z.ltb_spec d (DayFromYear y)).
  - replace (y - 1 + 1) with y by lia. lia.
  - destruct (Z.leb_spec (DayFromYear (y + 1)) d).
    + replace (y + 1 + 1) with (y + 2) by lia. lia.
    + lia.
Qed.

(** [YearFromTime t] is the largest year that has begun at [t]. *)
Lemma YearFromTime_largest (t y : Z) :
  TimeFromYear y <= t <-> y <= YearFromTime t.
Proof.
  pose proof (YearFromTime_spec t) as [Hlo Hhi].
  assert (TimeFromYear y <= t <-> DayFromYear y <= Day t) as ->.
  { unfold TimeFromYear, Day, msPerDay. split; intros.
    - apply Z.div_le_lower_bound; lia.
    - Z.div_mod_to_equations. lia. }
  split; intros H.
  - destruct (Z.le_gt_cases y (YearFromTime t)) as [|Hgt]; [assumption|].
    pose proof (DayFromYear_mono (YearFromTime t + 1) y ltac:(lia)). lia.
  - pose proof (DayFromYear_mono y (YearFromTime t) H). lia.
Qed.

Lemma DayWithinYear_range (t : Z) : 0 <= DayWithinYear t < 365 + InLeapYear t.
Proof.
  pose proof (YearFromTime_spec t) as H. rewrite DayFromYear_succ in H.
  unfold DayWithinYear, InLeapYear.
  destruct (DaysInYear_cases (YearFromTime t)) as [E|E]; rewrite E in *; simpl; lia.
Qed.

Lemma MonthFromTime_range (t : Z) : 0 <= MonthFromTime t <= 11.
Proof. unfold MonthFromTime. repeat case (_ <? _); lia. Qed.

Ltac month_cases d L tac :=
  destruct (Z.ltb_spec d 31); [tac|];
  destruct (Z.ltb_spec d (59 + L)); [tac|];
  destruct (Z.ltb_spec d (90 + L)); [tac|];
  destruct (Z.ltb_spec d (120 + L)); [tac|];
  destruct (Z.ltb_spec d (151 + L)); [tac|];
  destruct (Z.ltb_spec d (181 + L)); [tac|];
  destruct (Z.ltb_spec d (212 + L)); [tac|];
  destruct (Z.ltb_spec d (243 + L)); [tac|];
  destruct (Z.ltb_spec d (273 + L)); [tac|];
  destruct (Z.ltb_spec d (304 + L)); [tac|];
  destruct (Z.ltb_spec d (334 + L)); tac.

Lemma DateFromTime_range (t : Z) : 1 <= DateFromTime t <= 31.
Proof.
  pose proof (DayWithinYear_range t) as R.
  unfold DateFromTime, MonthFromTime, InLeapYear, DayWithinYear in *.
  set (d := Day t - DayFromYear (YearFromTime t)) in *.
  set (L := if DaysInYear (YearFromTime t) =? 366 then 1 else 0) in *.
  assert (L = 0 \/ L = 1) as HL by (unfold L; case (_ =? _); auto).
  clearbody L d.
  month_cases d L lia.
Qed.

(** The year, month and day of month of [t] name the day of [t]. *)
Lemma MakeDay_inv (t : Z) :
  MakeDay (YearFromTime t) (MonthFromTime t) (DateFromTime t) = Day t.
Proof.
  pose proof (DayWithinYear_range t) as R.
  pose proof (MonthFromTime_range t) as M.
  unfold MakeDay.
  rewrite (Z.div_small (MonthFromTime t) 12), (Z.mod_small (MonthFromTime t) 12),
    Z.add_0_r by lia.
  clear M. unfold DateFromTime, MonthFromTime, InLeapYear, DayWithinYear in *.
  set (d := Day t - DayFromYear (YearFromTime t)) in *.
  set (L := if DaysInYear (YearFromTime t) =? 366 then 1 else 0) in *.
  assert (L = 0 \/ L = 1) as HL by (unfold L; case (_ =? _); auto).
  clearbody L.
  month_cases d L ltac:(cbv iota beta; subst d; lia).
Qed.

Lemma MakeTime_inv (t : Z) :
  MakeTime (HourFromTime t) (MinFromTime t) (SecFromTime t) (msFromTime t)
  = TimeWithinDay t.
Proof.
  unfold MakeTime, HourFromTime, MinFromTime, SecFromTime, msFromTime,
    TimeWithinDay, msPerHour, msPerMinute, msPerSecond, msPerDay.
  Z.div_mod_to_equations. lia.
Qed.

Lemma MakeDate_inv (t : Z) :
  MakeDate (MakeDay (YearFromTime t) (MonthFromTime t) (DateFromTime t))
    (MakeTime (HourFromTime t) (MinFromTime t) (SecFromTime t) (msFromTime t))
  = t.
Proof.
  rewrite MakeDay_inv, MakeTime_inv. unfold MakeDate, Day, TimeWithinDay, msPerDay.
  Z.div_mod_to_equations. lia.
Qed.

Lemma time_fields_range (t : Z) :
  0 <= HourFromTime t < 24 /\ 0 <= MinFromTime t < 60 /\
  0 <= SecFromTime t < 60 /\ 0 <= msFromTime t < 1000.
Proof.
  unfold HourFromTime, MinFromTime, SecFromTime, msFromTime, msPerSecond.
  repeat split; try (apply Z.mod_pos_bound; lia).
Qed.
End Calendar.

(** The two ends of the range of time values, a leap day and the instant
    before the epoch, as every engine prints them. *)
Example toISOString_latest :
  ES.toISOString (DateOf 8640000000000000) = inr "+275760-09-13T00:00:00.000Z".
Proof. vm_compute. reflexivity. Qed.

Example toISOString_earliest :
  ES.toISOString (DateOf (-8640000000000000)) = inr "-271821-04-20T00:00:00.000Z".
Proof. vm_compute. reflexivity. Qed.

Example toISOString_leap_day :
  ES.toISOString (ES.Date_UTC 2000 1 29 23 59 59 7) = inr "2000-02-29T23:59:59.007Z".
Proof. vm_compute. reflexivity. Qed.

Example toISOString_before_epoch :
  ES.toISOString (DateOf (-1)) = inr "1969-12-31T23:59:59.999Z".
Proof. vm_compute. reflexivity. Qed.

(** The four dates of the test suite. *)
Example dateToTimestamp_tests :
  dateToTimestamp (ES.Date_UTC 2015 9 12 5 10 0 0) = JNum 1444626600 /\
  dateToTimestamp (ES.Date_UTC 2015 11 10 7 50 20 0) = JNum 1449733820 /\
  dateToTimestamp (ES.Date_UTC 2017 9 28 20 29 40 0) = JNum 1509222580 /\
  dateToTimestamp (ES.Date_UTC 2018 4 4 9 12 21 0) = JNum 1525425141.
Proof. vm_compute. repeat split. Qed.

Example dateToTimestamp_invalid : dateToTimestamp InvalidDate = JNaN.
Proof. reflexivity. Qed.

Example dateToTimestamp_negative_half : dateToTimestamp (DateOf (-1500)) = JNum (-1).
Proof. vm_compute. reflexivity. Qed.

(** ** What an authorized call sends *)

Lemma is_defined_true (v : JsValue) : is_defined v = true <-> v <> JUndefined.
Proof. destruct v; simpl; split; congruence. Qed.

Lemma is_defined_false (v : JsValue) : is_defined v = false <-> v = JUndefined.
Proof. destruct v; simpl; split; congruence. Qed.

(** With a token, [getStreams] sends one request, whose parameters are
    those it built and whose serializer is the one of qs. *)
Lemma getStreams_sends (feedId types channels : JsValue)
    (dataTimeFrom dataTimeTo : option JsDate) (net : Transport) (st : State) :
  _token (this st) <> JUndefined ->
  sent (getStreams feedId types channels dataTimeFrom dataTimeTo net st).2 =
  (sent st ++
  [(_axios (this st),
    axios_get ("/feeds/" +:+ js_toString feedId +:+ "/streams")
      {| headers := Some (_authorizedRequestHeaders (this st));
         params := Some (getStreams_params types channels dataTimeFrom dataTimeTo);
         paramsSerializer := Some qs.stringify_no_indices;
         auth := None |})])%list.
Proof.
  intros H%is_defined_true. run_method. rewrite H.
  destruct (net _ _); reflexivity.
Qed.

Lemma getStreamData_sends (feedId streamId : JsValue)
    (timeFrom timeTo : option JsDate) (limit : JsValue)
    (net : Transport) (st : State) :
  _token (this st) <> JUndefined ->
  sent (getStreamData feedId streamId timeFrom timeTo limit net st).2 =
  (sent st ++
  [(_axios (this st),
    axios_get
      ("/feeds/" +:+ js_toString feedId +:+ "/streams/" +:+ js_toString streamId
       +:+ "/data")
      {| headers := Some (_authorizedRequestHeaders (this st));
         params := Some (getStreamData_params timeFrom timeTo limit);
         paramsSerializer := None;
         auth := None |})])%list.
Proof.
  intros H%is_defined_true. run_method. rewrite H.
  destruct (net _ _); reflexivity.
Qed.

Lemma getNotifications_sends (userId : JsValue) (createdAtFrom : option JsDate)
    (p : JsObject) (net : Transport) (st : State) :
  _token (this st) <> JUndefined ->
  getNotifications_params createdAtFrom = inr p ->
  sent (getNotifications userId createdAtFrom net st).2 =
  (sent st ++
  [(_axios (this st),
    axios_get ("/users/" +:+ js_toString userId +:+ "/notifications")
      {| headers := Some (_authorizedRequestHeaders (this st));
         params := Some p;
         paramsSerializer := None;
         auth := None |})])%list.
Proof.
  intros H%is_defined_true Hp. run_method. rewrite Hp. run_method. rewrite H.
  destruct (net _ _); reflexivity.
Qed.

(** With a token and arguments that marshal, every method but [authorize]
    sends exactly one request, under the session's headers. *)
Lemma gated_call_sends (c : Call) (net : Transport) (st : State) :
  is_authorize c = false ->
  marshals c = true ->
  _token (this st) <> JUndefined ->
  exists r : Request,
    sent (invoke c net st).2 = (sent st ++ [(_axios (this st), r)])%list /\
    headers (config_of r) = Some (_authorizedRequestHeaders (this st)).
Proof.
  intros Hc Hm H%is_defined_true.
  destruct c; try discriminate Hc; run_method;
    try (rewrite H; eexists; split; [destruct (net _ _); reflexivity | reflexivity]).
  destruct createdAtFrom as [[t|]|]; try discriminate Hm; simpl; run_method;
    rewrite H; eexists; (split; [destruct (net _ _); reflexivity | reflexivity]).
Qed.

(** A method other than [authorize] writes no field of the session. *)
Lemma gated_call_keeps_session (c : Call) (net : Transport) (st : State) :
  is_authorize c = false -> this (invoke c net st).2 = this st.
Proof.
  intros Hc.
  destruct c; try discriminate Hc; run_method;
    try (destruct (is_defined _); [destruct (net _ _)|]; reflexivity).
  destruct createdAtFrom as [[t|]|]; simpl; run_method;
    try (destruct (is_defined _); [destruct (net _ _)|]); reflexivity.
Qed.

Example fixture_unauthorized :
  energomonitorUnauthorized =
  {| this := {| _token := JUndefined;
                _authorizedRequestHeaders :=
                  [("Content-Type", "application/json");
                   ("Authorization", "Bearer undefined")];
                _axios := 1%positive |};
     sent := [] |}.
Proof. vm_compute. reflexivity. Qed.

(** ** C1: calls without a token *)

(** C1 holds of every method but for the order of two steps in three of
    them: [getStreams], [getStreamData] and [getNotifications] convert their
    date arguments before they come to the gate, where the other methods
    have nothing that can fail before it.  On the session of the test suite
    that holds no token, [getNotifications(1, new Date(NaN))] does not
    return a promise rejected with the fixed message: [toISOString] throws a
    [RangeError] out of the call.  The same method without the date, or with
    a date that converts, and its neighbour [getNotification] return the
    rejected promise that the documentation of the gate and the tests
    ("returns a rejected promise when token is not set") ask for.  None of
    the calls reaches the transport. *)
Theorem unauthorized_getNotifications_throws :
  let message :=
    "Cannot call this method without setting the authorization token (in the constructor or using the authorize method)." in
  _token (this energomonitorUnauthorized) = JUndefined /\
  getNotifications (JNum 1) (Some InvalidDate) (mock (Reply (JArr [])))
    energomonitorUnauthorized
  = (Throws RangeError, energomonitorUnauthorized) /\
  (getNotifications (JNum 1) (Some InvalidDate) (mock (Reply (JArr [])))
     energomonitorUnauthorized).1 <> Rejects (JStr message) /\
  getNotifications (JNum 1) None (mock (Reply (JArr []))) energomonitorUnauthorized
  = (Rejects (JStr message), energomonitorUnauthorized) /\
  getNotifications (JNum 1) (Some (DateOf 0)) (mock (Reply (JArr [])))
    energomonitorUnauthorized
  = (Rejects (JStr message), energomonitorUnauthorized) /\
  getNotification (JNum 1) (JNum 2) (mock (Reply (JArr [])))
    energomonitorUnauthorized
  = (Rejects (JStr message), energomonitorUnauthorized) /\
  sent energomonitorUnauthorized = [].
Proof. cbv zeta. repeat split; try reflexivity. discriminate. Qed.

(** ** C2: dates as Unix timestamps *)

Lemma dateToTimestamp_eq (t : Z) : dateToTimestamp (DateOf t) = JNum ((t + 500) / 1000).
Proof. unfold dateToTimestamp; simpl. now rewrite Math_round_div_1000. Qed.

Lemma getStreams_params_dates (types channels : JsValue) (d1 d2 : JsDate) :
  obj_get "data_time_from" (getStreams_params types channels (Some d1) (Some d2))
  = dateToTimestamp d1 /\
  obj_get "data_time_to" (getStreams_params types channels (Some d1) (Some d2))
  = dateToTimestamp d2.
Proof.
  unfold getStreams_params, set_if_defined, set_if_date.
  destruct (is_defined types), (is_defined channels); split; reflexivity.
Qed.

Lemma getStreamData_params_dates (d1 d2 : JsDate) (limit : JsValue) :
  obj_get "time_from" (getStreamData_params (Some d1) (Some d2) limit)
  = dateToTimestamp d1 /\
  obj_get "time_to" (getStreamData_params (Some d1) (Some d2) limit)
  = dateToTimestamp d2.
Proof.
  unfold getStreamData_params, set_if_defined, set_if_date.
  destruct (is_defined limit); split; reflexivity.
Qed.

(** C2 as the specification words it fails on the date one and a half
    seconds after the epoch: the code sends 2, the floor is 1. *)
Lemma dateToTimestamp_rounds_up :
  dateToTimestamp (DateOf 1500) = JNum 2 /\
  Qfloor (inject_Z 1500 / inject_Z 1000) = 1 /\
  dateToTimestamp (DateOf 1500) <> JNum (Qfloor (inject_Z 1500 / inject_Z 1000)).
Proof. repeat split; try reflexivity. vm_compute. discriminate. Qed.

(** C2, as the code has it.  The timestamp of a date is its milliseconds
    since the epoch divided by 1000 and rounded to the nearest integer, a
    half going up; it is the floor exactly when the date lies less than half
    a second after a whole second.  [getStreams] sends it as
    [data_time_from] and [data_time_to], [getStreamData] as [time_from] and
    [time_to], and for 2015-10-12T05:10:00Z the latter sends
    [time_from = 1444626600] and nothing else. *)
Theorem timestamps_round_to_nearest_second
    (feedId streamId types channels limit : JsValue) (t1 t2 : Z)
    (net : Transport) (st : State) :
  _token (this st) <> JUndefined ->
  dateToTimestamp (DateOf t1) = JNum ((t1 + 500) / 1000) /\
  (dateToTimestamp (DateOf t1) = JNum (Qfloor (inject_Z t1 / inject_Z 1000)) <->
   t1 mod 1000 < 500) /\
  (exists p,
     sent (getStreams feedId types channels (Some (DateOf t1)) (Some (DateOf t2))
             net st).2 =
     (sent st ++
      [(_axios (this st),
        axios_get ("/feeds/" +:+ js_toString feedId +:+ "/streams")
          {| headers := Some (_authorizedRequestHeaders (this st));
             params := Some p;
             paramsSerializer := Some qs.stringify_no_indices;
             auth := None |})])%list /\
     obj_get "data_time_from" p = JNum ((t1 + 500) / 1000) /\
     obj_get "data_time_to" p = JNum ((t2 + 500) / 1000)) /\
  (exists p,
     sent (getStreamData feedId streamId (Some (DateOf t1)) (Some (DateOf t2)) limit
             net st).2 =
     (sent st ++
      [(_axios (this st),
        axios_get
          ("/feeds/" +:+ js_toString feedId +:+ "/streams/" +:+
           js_toString streamId +:+ "/data")
          {| headers := Some (_authorizedRequestHeaders (this st));
             params := Some p;
             paramsSerializer := None;
             auth := None |})])%list /\
     obj_get "time_from" p = JNum ((t1 + 500) / 1000) /\
     obj_get "time_to" p = JNum ((t2 + 500) / 1000)) /\
  sent (getStreamData feedId streamId (Some (ES.Date_UTC 2015 9 12 5 10 0 0)) None
          JUndefined net st).2 =
  (sent st ++
   [(_axios (this st),
     axios_get
       ("/feeds/" +:+ js_toString feedId +:+ "/streams/" +:+
        js_toString streamId +:+ "/data")
       {| headers := Some (_authorizedRequestHeaders (this st));
          params := Some [("time_from", JNum 1444626600)];
          paramsSerializer := None;
          auth := None |})])%list.
Proof.
  intros Htok. split; [apply dateToTimestamp_eq|]. split.
  - rewrite dateToTimestamp_eq, Qfloor_div_1000. split.
    + intros [= E]. Z.div_mod_to_equations. lia.
    + intros H. f_equal. Z.div_mod_to_equations. lia.
  - split; [|split].
    + eexists. split; [apply getStreams_sends, Htok|].
      rewrite <- !dateToTimestamp_eq. apply getStreams_params_dates.
    + eexists. split; [apply getStreamData_sends, Htok|].
      rewrite <- !dateToTimestamp_eq. apply getStreamData_params_dates.
    + rewrite getStreamData_sends by exact Htok. reflexivity.
Qed.

Lemma timestamps_round_to_nearest_second_witness :
  _token (this energomonitorAuthorized) <> JUndefined /\
  dateToTimestamp (DateOf 1444626600499) = JNum ((1444626600499 + 500) / 1000) /\
  sent (getStreamData (JNum 1) (JNum 2) (Some (ES.Date_UTC 2015 9 12 5 10 0 0)) None
          JUndefined (mock (Reply (JArr []))) energomonitorAuthorized).2 =
  [(1%positive,
    axios_get "/feeds/1/streams/2/data"
      {| headers := Some [("Content-Type", "application/json");
                          ("Authorization", "Bearer my-token")];
         params := Some [("time_from", JNum 1444626600)];
         paramsSerializer := None;
         auth := None |})].
Proof.
  assert (_token (this energomonitorAuthorized) <> JUndefined) as H by discriminate.
  split; [exact H|].
  destruct (timestamps_round_to_nearest_second (JNum 1) (JNum 2) JUndefined
              JUndefined JUndefined 1444626600499 0 (mock (Reply (JArr [])))
              energomonitorAuthorized H) as (E1 & _ & _ & _ & E2).
  split; [exact E1 | exact E2].
Defined.

(** ** C7: dates as ISO 8601 text *)

Lemma append_String (c : ascii) (s1 s2 : string) :
  String c s1 +:+ s2 = String c (s1 +:+ s2).
Proof. reflexivity. Qed.

Lemma append_assoc (s1 s2 s3 : string) : (s1 +:+ s2) +:+ s3 = s1 +:+ (s2 +:+ s3).
Proof.
  induction s1 as [|c s1 IH]; [reflexivity|].
  now rewrite !append_String, IH.
Qed.

Lemma length_append (s1 s2 : string) :
  String.length (s1 +:+ s2) = (String.length s1 + String.length s2)%nat.
Proof.
  induction s1 as [|c s1 IH]; [reflexivity|].
  rewrite append_String. simpl. now rewrite IH.
Qed.

Lemma digits_value_append (s1 s2 : string) (acc : Z) :
  ES.digits_value (s1 +:+ s2) acc = ES.digits_value s2 (ES.digits_value s1 acc).
Proof.
  revert acc. induction s1 as [|c s1 IH]; intros acc; [reflexivity|].
  rewrite append_String. simpl. apply IH.
Qed.

Lemma pad_go_append (w : nat) (n : Z) (acc : string) :
  ES.pad_go w n acc = ES.pad w n +:+ acc.
Proof.
  unfold ES.pad. revert n acc. induction w as [|w IH]; intros n acc; simpl.
  - reflexivity.
  - rewrite (IH _ (String _ acc)), (IH _ (String _ "")), append_assoc. reflexivity.
Qed.

Lemma pad_length (w : nat) (n : Z) : String.length (ES.pad w n) = w.
Proof.
  revert n. induction w as [|w IH]; intros n; [reflexivity|].
  unfold ES.pad; simpl. rewrite pad_go_append, length_append, IH. simpl. lia.
Qed.

Lemma digit_value (d : Z) :
  0 <= d < 10 -> Z.of_N (N_of_ascii (pretty_N_char (Z.to_N d))) - 48 = d.
Proof.
  intros H.
  assert (d = 0 \/ d = 1 \/ d = 2 \/ d = 3 \/ d = 4 \/ d = 5 \/ d = 6 \/ d = 7 \/
          d = 8 \/ d = 9) as E by lia.
  repeat (destruct E as [-> | E]; [reflexivity|]). now subst.
Qed.

(** [pad w n] writes [n] in [w] decimal digits whenever [n] has no more. *)
Lemma pad_digits_value (w : nat) (n acc : Z) :
  0 <= n < 10 ^ Z.of_nat w ->
  ES.digits_value (ES.pad w n) acc = acc * 10 ^ Z.of_nat w + n.
Proof.
  revert n acc. induction w as [|w IH]; intros n acc Hn.
  - simpl in *. lia.
  - unfold ES.pad; simpl ES.pad_go.
    rewrite pad_go_append, digits_value_append.
    rewrite Nat2Z.inj_succ, Z.pow_succ_r in * by lia.
    rewrite IH by (Z.div_mod_to_equations; lia).
    simpl ES.digits_value. rewrite digit_value by (apply Z.mod_pos_bound; lia).
    Z.div_mod_to_equations. lia.
Qed.

Lemma getNotifications_params_valid (t : Z) :
  getNotifications_params (Some (DateOf t)) =
  inr [("created_at_from",
        JStr (ES.iso_string (ES.YearFromTime t) (ES.MonthFromTime t + 1)
                (ES.DateFromTime t) (ES.HourFromTime t) (ES.MinFromTime t)
                (ES.SecFromTime t) (ES.msFromTime t)))].
Proof. reflexivity. Qed.

(** C7 as the specification words it fails on [new Date(NaN)]: with a token
    set, [getNotifications] throws a [RangeError] and sends no request, so
    no [created_at_from] reaches the wire. *)
Lemma getNotifications_invalid_date_sends_nothing :
  _token (this energomonitorAuthorized) <> JUndefined /\
  getNotifications (JNum 1) (Some InvalidDate) (mock (Reply (JArr [])))
    energomonitorAuthorized
  = (Throws RangeError, energomonitorAuthorized) /\
  sent energomonitorAuthorized = [].
Proof. repeat split. discriminate. Qed.

Lemma year_string_small (y : Z) :
  0 <= y <= 9999 -> ES.year_string y = ES.pad 4 y.
Proof.
  intros H. unfold ES.year_string.
  destruct (Z.leb_spec 0 y), (Z.leb_spec y 9999); try lia. reflexivity.
Qed.

(** C7, as the code has it.  For a valid date, [getNotifications] sends
    [created_at_from] as the text [YYYY-MM-DDTHH:mm:ss.sssZ] (the year in
    four digits, or a sign and six outside 0..9999), a string and not the
    timestamp the other date parameters get.  Its fields are a calendar date
    and a time of day that together give back the date's milliseconds, each
    written in decimal digits; with a four-digit year the text is 24
    characters long.  2017-04-22T16:30:00Z goes out as
    ["2017-04-22T16:30:00.000Z"]. *)
Theorem createdAtFrom_sent_as_ISO_8601 (userId : JsValue) (t : Z)
    (net : Transport) (st : State) :
  _token (this st) <> JUndefined ->
  (exists year month date hour min sec ms : Z,
     let text :=
       ES.year_string year +:+ "-" +:+ ES.pad 2 month +:+ "-" +:+
       ES.pad 2 date +:+ "T" +:+ ES.pad 2 hour +:+ ":" +:+
       ES.pad 2 min +:+ ":" +:+ ES.pad 2 sec +:+ "." +:+
       ES.pad 3 ms +:+ "Z" in
     sent (getNotifications userId (Some (DateOf t)) net st).2 =
     (sent st ++
      [(_axios (this st),
        axios_get ("/users/" +:+ js_toString userId +:+ "/notifications")
          {| headers := Some (_authorizedRequestHeaders (this st));
             params := Some [("created_at_from", JStr text)];
             paramsSerializer := None;
             auth := None |})])%list /\
     JStr text <> dateToTimestamp (DateOf t) /\
     1 <= month <= 12 /\ 1 <= date <= 31 /\
     0 <= hour < 24 /\ 0 <= min < 60 /\ 0 <= sec < 60 /\ 0 <= ms < 1000 /\
     ES.MakeDate (ES.MakeDay year (month - 1) date) (ES.MakeTime hour min sec ms) = t /\
     (forall y : Z, ES.TimeFromYear y <= t <-> y <= year) /\
     ES.digits_value (ES.pad 2 month) 0 = month /\
     ES.digits_value (ES.pad 2 date) 0 = date /\
     ES.digits_value (ES.pad 2 hour) 0 = hour /\
     ES.digits_value (ES.pad 2 min) 0 = min /\
     ES.digits_value (ES.pad 2 sec) 0 = sec /\
     ES.digits_value (ES.pad 3 ms) 0 = ms /\
     (0 <= year <= 9999 ->
      ES.digits_value (ES.year_string year) 0 = year /\
      String.length text = 24%nat)) /\
  sent (getNotifications userId (Some (ES.Date_UTC 2017 3 22 16 30 0 0)) net st).2 =
  (sent st ++
   [(_axios (this st),
     axios_get ("/users/" +:+ js_toString userId +:+ "/notifications")
       {| headers := Some (_authorizedRequestHeaders (this st));
          params := Some [("created_at_from", JStr "2017-04-22T16:30:00.000Z")];
          paramsSerializer := None;
          auth := None |})])%list.
Proof.
  intros Htok. split.
  - exists (ES.YearFromTime t), (ES.MonthFromTime t + 1), (ES.DateFromTime t),
      (ES.HourFromTime t), (ES.MinFromTime t), (ES.SecFromTime t), (ES.msFromTime t).
    cbv zeta. split.
    { exact (getNotifications_sends userId _ _ net st Htok
               (getNotifications_params_valid t)). }
    split; [rewrite dateToTimestamp_eq; discriminate|].
    pose proof (MonthFromTime_range t). pose proof (DateFromTime_range t).
    pose proof (time_fields_range t) as (? & ? & ? & ?).
    repeat (split; [lia|]). split; [|split].
    + replace (ES.MonthFromTime t + 1 - 1) with (ES.MonthFromTime t) by lia.
      apply MakeDate_inv.
    + intros y. apply YearFromTime_largest.
    + repeat (split; [rewrite pad_digits_value; simpl; lia|]).
      intros Hy. rewrite year_string_small by exact Hy. split.
      * rewrite pad_digits_value; simpl; lia.
      * rewrite !length_append, !pad_length. reflexivity.
  - apply (getNotifications_sends userId _ _ net st Htok). reflexivity.
Qed.

Lemma createdAtFrom_sent_as_ISO_8601_witness :
  _token (this energomonitorAuthorized) <> JUndefined /\
  sent (getNotifications (JNum 1) (Some (ES.Date_UTC 2017 3 22 16 30 0 0))
          (mock (Reply (JArr []))) energomonitorAuthorized).2 =
  [(1%positive,
    axios_get "/users/1/notifications"
      {| headers := Some [("Content-Type", "application/json");
                          ("Authorization", "Bearer my-token")];
         params := Some [("created_at_from", JStr "2017-04-22T16:30:00.000Z")];
         paramsSerializer := None;
         auth := None |})].
Proof.
  assert (_token (this energomonitorAuthorized) <> JUndefined) as H by discriminate.
  split; [exact H|].
  exact (proj2 (createdAtFrom_sent_as_ISO_8601 (JNum 1) 0 (mock (Reply (JArr [])))
                  energomonitorAuthorized H)).
Defined.

(** ** The authorize call *)

(** What [authorize] comes to, by the answer of the transport. *)
Lemma authorize_run (u p n r v : JsValue) (net : Transport) (st : State) :
  authorize u p n r v net st =
  let request := authorize_request u p n r v in
  let sent' := (sent st ++ [(_axios (this st), request)])%list in
  match net (_axios (this st)) request with
  | Failure error => (Rejects error, {| this := this st; sent := sent' |})
  | Reply data =>
      match get_prop data "token" with
      | inl e => (RejectsWith e, {| this := this st; sent := sent' |})
      | inr token =>
          if throws_on_toString token then
            (RejectsWith TypeError,
             {| this := {| _token := token;
                           _authorizedRequestHeaders :=
                             _authorizedRequestHeaders (this st);
                           _axios := _axios (this st) |};
                sent := sent' |})
          else
            (Resolves data,
             {| this := {| _token := token;
                           _authorizedRequestHeaders :=
                             buildAuthorizedRequestHeaders token;
                           _axios := _axios (this st) |};
                sent := sent' |})
      end
  end.
Proof.
  run_method. cbv zeta.
  destruct (net _ _) as [data|error]; [|reflexivity].
  destruct (get_prop data "token") as [e|token]; [reflexivity|].
  cbn. destruct (throws_on_toString token); reflexivity.
Qed.

(** ** C3: can a token be lost? *)

(** C3 as the specification words it fails when the server answers an
    [authorize] call with a body that has no [token]: the session of the
    test suite that holds ['my-token'] holds [undefined] afterwards. *)
Lemma authorize_without_token_unsets :
  _token (this energomonitorAuthorized) = JStr "my-token" /\
  _token (this (invoke (call_authorize (JStr "test_user") (JStr "test_pw")
                          JUndefined JUndefined JUndefined)
                  (mock (Reply (JObj []))) energomonitorAuthorized).2)
  = JUndefined.
Proof. split; reflexivity. Qed.

(** C3, as the code has it.  A session that holds a token holds one after
    any call, except after an [authorize] call that the transport answers
    with a body whose [token] is [undefined] (an object without that key, or
    a string, number, boolean or array): [authorize] stores
    [response.data.token] as it finds it. *)
Theorem token_lost_only_by_authorize_without_token
    (c : Call) (net : Transport) (st : State) :
  _token (this st) <> JUndefined ->
  (_token (this (invoke c net st).2) = JUndefined <->
   exists data, authorize_reply net st c = Some data /\
                get_prop data "token" = inr JUndefined).
Proof.
  intros Htok. destruct (is_authorize c) eqn:Hc.
  - destruct c; try discriminate Hc. unfold invoke. rewrite authorize_run.
    cbv zeta. unfold authorize_reply.
    destruct (net _ _) as [data|error]; cbn [this snd _token].
    + destruct (get_prop data "token") as [e|token] eqn:Hp; cbn [this snd _token].
      * split; [contradiction|]. intros (d & [= <-] & H). congruence.
      * destruct (throws_on_toString token); cbn [this snd _token];
          (split; [intros ->; eauto | intros (d & [= <-] & H); congruence]).
    + split; [contradiction|]. intros (d & [=] & _).
  - rewrite gated_call_keeps_session by exact Hc.
    split; [contradiction|].
    intros (d & H & _). destruct c; discriminate.
Qed.

Lemma token_lost_only_by_authorize_without_token_witness :
  _token (this energomonitorAuthorized) <> JUndefined /\
  (_token (this (invoke (call_authorize (JStr "test_user") (JStr "test_pw")
                           JUndefined JUndefined JUndefined)
                   (mock (Reply mockData_authorization))
                   energomonitorAuthorized).2) = JUndefined <->
   exists data,
     authorize_reply (mock (Reply mockData_authorization)) energomonitorAuthorized
       (call_authorize (JStr "test_user") (JStr "test_pw")
          JUndefined JUndefined JUndefined) = Some data /\
     get_prop data "token" = inr JUndefined).
Proof.
  assert (_token (this energomonitorAuthorized) <> JUndefined) as H by discriminate.
  split; [exact H|].
  exact (token_lost_only_by_authorize_without_token _ _ _ H).
Defined.

(** ** C4: who writes the token *)

(** C4.  A call of any method but [authorize] leaves the token and the
    headers derived from it as they were, and so does an [authorize] call
    that the transport fails, which rejects with the transport's error. *)
Theorem session_written_only_by_successful_authorize :
  (forall (c : Call) (net : Transport) (st : State),
     is_authorize c = false -> this (invoke c net st).2 = this st) /\
  (forall (c : Call) (net : Transport) (st : State),
     this (invoke c net st).2 <> this st ->
     exists data, authorize_reply net st c = Some data) /\
  (forall (u p n r v error : JsValue) (net : Transport) (st : State),
     net (_axios (this st)) (authorize_request u p n r v) = Failure error ->
     this (authorize u p n r v net st).2 = this st /\
     (authorize u p n r v net st).1 = Rejects error).
Proof.
  split; [|split].
  - apply gated_call_keeps_session.
  - intros c net st H. destruct (is_authorize c) eqn:Hc.
    + destruct c; try discriminate Hc. unfold invoke in H.
      rewrite authorize_run in H. cbv zeta in H. unfold authorize_reply.
      destruct (net _ _) as [data|error]; [eauto|]. now destruct H.
    + now rewrite gated_call_keeps_session in H.
  - intros u p n r v error net st H. rewrite authorize_run. cbv zeta.
    rewrite H. split; reflexivity.
Qed.

Lemma session_written_only_by_successful_authorize_witness :
  (is_authorize (call_updateNotifications (JNum 1) (JObj [("read", JBool true)]))
   = false /\
   this (invoke (call_updateNotifications (JNum 1) (JObj [("read", JBool true)]))
           (mock (Reply JNull)) energomonitorAuthorized).2
   = this energomonitorAuthorized) /\
  (mock (Failure (JStr "401")) (_axios (this energomonitorAuthorized))
     (authorize_request (JStr "test_user") (JStr "bad_pw") JUndefined JUndefined
        JUndefined) = Failure (JStr "401") /\
   this (authorize (JStr "test_user") (JStr "bad_pw") JUndefined JUndefined
           JUndefined (mock (Failure (JStr "401"))) energomonitorAuthorized).2
   = this energomonitorAuthorized /\
   (authorize (JStr "test_user") (JStr "bad_pw") JUndefined JUndefined
           JUndefined (mock (Failure (JStr "401"))) energomonitorAuthorized).1
   = Rejects (JStr "401")) /\
  (this (invoke (call_authorize (JStr "test_user") (JStr "test_pw") JUndefined
                   JUndefined JUndefined)
           (mock (Reply mockData_authorization)) energomonitorAuthorized).2
   <> this energomonitorAuthorized /\
   exists data,
     authorize_reply (mock (Reply mockData_authorization)) energomonitorAuthorized
       (call_authorize (JStr "test_user") (JStr "test_pw") JUndefined
          JUndefined JUndefined) = Some data).
Proof.
  split; [|split].
  - split; [reflexivity|].
    apply (proj1 session_written_only_by_successful_authorize); reflexivity.
  - split; [reflexivity|].
    apply (proj2 (proj2 session_written_only_by_successful_authorize)); reflexivity.
  - split; [discriminate|].
    apply (proj1 (proj2 session_written_only_by_successful_authorize)); discriminate.
Defined.

(** ** C5: what is left out stays out *)

Lemma omitUndefinedBuilder_keys (inputs : list (string * JsValue)) (k : string) :
  In k (obj_keys (omitUndefinedBuilder inputs)) <->
  exists v, In (k, v) inputs /\ v <> JUndefined.
Proof.
  unfold obj_keys, omitUndefinedBuilder. rewrite in_map_iff. split.
  - intros ([k' v] & <- & [H1 H2%is_defined_true]%filter_In). eauto.
  - intros (v & H1 & H2%is_defined_true). exists (k, v). split; [reflexivity|].
    apply filter_In. auto.
Qed.

Lemma authorize_data_built (note resources validMinutes : JsValue) :
  authorize_data note resources validMinutes =
  omitUndefinedBuilder
    [("note", note); ("resources", resources); ("valid_minutes", validMinutes)].
Proof.
  unfold authorize_data, set_if_defined, omitUndefinedBuilder. simpl.
  destruct (is_defined note), (is_defined resources), (is_defined validMinutes);
    reflexivity.
Qed.

Lemma getStreams_params_built (types channels : JsValue)
    (dataTimeFrom dataTimeTo : option JsDate) :
  getStreams_params types channels dataTimeFrom dataTimeTo =
  omitUndefinedBuilder
    [("type", types); ("channel", channels);
     ("data_time_from", converted dateToTimestamp dataTimeFrom);
     ("data_time_to", converted dateToTimestamp dataTimeTo)].
Proof.
  unfold getStreams_params, set_if_defined, set_if_date, omitUndefinedBuilder. simpl.
  destruct (is_defined types), (is_defined channels),
    dataTimeFrom as [[?|]|], dataTimeTo as [[?|]|]; reflexivity.
Qed.

Lemma getStreamData_params_built (timeFrom timeTo : option JsDate) (limit : JsValue) :
  getStreamData_params timeFrom timeTo limit =
  omitUndefinedBuilder
    [("limit", limit);
     ("time_from", converted dateToTimestamp timeFrom);
     ("time_to", converted dateToTimestamp timeTo)].
Proof.
  unfold getStreamData_params, set_if_defined, set_if_date, omitUndefinedBuilder.
  simpl.
  destruct (is_defined limit), timeFrom as [[?|]|], timeTo as [[?|]|]; reflexivity.
Qed.

(** C5.  [authorize] posts to [/authorizations] with the user name and the
    password as the Basic credentials, and its body is what the
    specification's builder makes of [note], [resources] and [validMinutes]:
    each key is there if and only if its input was given, no other key is,
    and with none given the body is the empty object.  The query objects of
    [getStreams] and [getStreamData] are built the same way, that of
    [getNotifications] is empty without a date, and the two update methods
    send [data] as it is. *)
Theorem optional_inputs_left_out_stay_out
    (username password note resources validMinutes : JsValue)
    (feedId streamId userId notificationId types channels limit data : JsValue)
    (from to : option JsDate)
    (net : Transport) (st : State) :
  let body := authorize_data note resources validMinutes in
  sent (authorize username password note resources validMinutes net st).2 =
  (sent st ++
   [(_axios (this st),
     axios_post "/authorizations" (JObj body)
       {| headers := None; params := None; paramsSerializer := None;
          auth := Some (username, password) |})])%list /\
  body = omitUndefinedBuilder
           [("note", note); ("resources", resources);
            ("valid_minutes", validMinutes)] /\
  (In "note" (obj_keys body) <-> note <> JUndefined) /\
  (In "resources" (obj_keys body) <-> resources <> JUndefined) /\
  (In "valid_minutes" (obj_keys body) <-> validMinutes <> JUndefined) /\
  (forall k, In k (obj_keys body) ->
             k = "note" \/ k = "resources" \/ k = "valid_minutes") /\
  authorize_data JUndefined JUndefined JUndefined = [] /\
  (_token (this st) <> JUndefined ->
   sent (getStreams feedId types channels from to net st).2 =
   (sent st ++
    [(_axios (this st),
      axios_get ("/feeds/" +:+ js_toString feedId +:+ "/streams")
        {| headers := Some (_authorizedRequestHeaders (this st));
           params := Some (omitUndefinedBuilder
             [("type", types); ("channel", channels);
              ("data_time_from", converted dateToTimestamp from);
              ("data_time_to", converted dateToTimestamp to)]);
           paramsSerializer := Some qs.stringify_no_indices;
           auth := None |})])%list /\
   sent (getStreamData feedId streamId from to limit net st).2 =
   (sent st ++
    [(_axios (this st),
      axios_get
        ("/feeds/" +:+ js_toString feedId +:+ "/streams/" +:+
         js_toString streamId +:+ "/data")
        {| headers := Some (_authorizedRequestHeaders (this st));
           params := Some (omitUndefinedBuilder
             [("limit", limit);
              ("time_from", converted dateToTimestamp from);
              ("time_to", converted dateToTimestamp to)]);
           paramsSerializer := None;
           auth := None |})])%list /\
   sent (getNotifications userId None net st).2 =
   (sent st ++
    [(_axios (this st),
      axios_get ("/users/" +:+ js_toString userId +:+ "/notifications")
        {| headers := Some (_authorizedRequestHeaders (this st));
           params := Some [];
           paramsSerializer := None;
           auth := None |})])%list /\
   sent (updateNotifications userId data net st).2 =
   (sent st ++
    [(_axios (this st),
      axios_patch ("/users/" +:+ js_toString userId +:+ "/notifications") data
        {| headers := Some (_authorizedRequestHeaders (this st));
           params := None; paramsSerializer := None; auth := None |})])%list /\
   sent (updateNotification userId notificationId data net st).2 =
   (sent st ++
    [(_axios (this st),
      axios_patch
        ("/users/" +:+ js_toString userId +:+ "/notifications/" +:+
         js_toString notificationId) data
        {| headers := Some (_authorizedRequestHeaders (this st));
           params := None; paramsSerializer := None; auth := None |})])%list).
Proof.
  intros body. split.
  { rewrite authorize_run. cbv zeta.
    destruct (net _ _) as [d|e];
      [destruct (get_prop d "token") as [?|tok];
       [|destruct (throws_on_toString tok)]|]; reflexivity. }
  split; [apply authorize_data_built|].
  assert (forall k, In k (obj_keys body) <->
                    exists v, In (k, v) [("note", note); ("resources", resources);
                                         ("valid_minutes", validMinutes)] /\
                              v <> JUndefined) as K.
  { intros k. unfold body. rewrite authorize_data_built.
    apply omitUndefinedBuilder_keys. }
  repeat split.
  - intros (v & Hin & Hv)%K. simpl in Hin.
    destruct Hin as [[= <-]|[[=]|[[=]|[]]]]. exact Hv.
  - intros H. apply K. exists note. simpl. auto.
  - intros (v & Hin & Hv)%K. simpl in Hin.
    destruct Hin as [[=]|[[= <-]|[[=]|[]]]]. exact Hv.
  - intros H. apply K. exists resources. simpl. auto.
  - intros (v & Hin & Hv)%K. simpl in Hin.
    destruct Hin as [[=]|[[=]|[[= <-]|[]]]]. exact Hv.
  - intros H. apply K. exists validMinutes. simpl. auto.
  - intros k (v & Hin & Hv)%K. simpl in Hin.
    destruct Hin as [[= <- _]|[[= <- _]|[[= <- _]|[]]]]; auto.
  - rewrite <- getStreams_params_built. now apply getStreams_sends.
  - rewrite <- getStreamData_params_built. now apply getStreamData_sends.
  - now apply getNotifications_sends.
  - apply is_defined_true in H. run_method. rewrite H.
    destruct (net _ _); reflexivity.
  - apply is_defined_true in H. run_method. rewrite H.
    destruct (net _ _); reflexivity.
Qed.

Lemma optional_inputs_left_out_stay_out_witness :
  _token (this energomonitorAuthorized) <> JUndefined /\
  sent (authorize (JStr "test_user") (JStr "test_pw") (JStr "test_note") JUndefined
          JUndefined (mock (Reply mockData_authorization))
          energomonitorAuthorized).2 =
  [(1%positive,
    axios_post "/authorizations" (JObj [("note", JStr "test_note")])
      {| headers := None; params := None; paramsSerializer := None;
         auth := Some (JStr "test_user", JStr "test_pw") |})] /\
  sent (getStreamData (JNum 1) (JNum 2) None None (JNum 50) (mock (Reply (JArr [])))
          energomonitorAuthorized).2 =
  [(1%positive,
    axios_get "/feeds/1/streams/2/data"
      {| headers := Some [("Content-Type", "application/json");
                          ("Authorization", "Bearer my-token")];
         params := Some [("limit", JNum 50)];
         paramsSerializer := None;
         auth := None |})] /\
  sent (updateNotifications (JNum 1) JUndefined (mock (Reply JNull))
          energomonitorAuthorized).2 =
  [(1%positive,
    axios_patch "/users/1/notifications" JUndefined
      {| headers := Some [("Content-Type", "application/json");
                          ("Authorization", "Bearer my-token")];
         params := None; paramsSerializer := None; auth := None |})].
Proof.
  assert (_token (this energomonitorAuthorized) <> JUndefined) as H by discriminate.
  split; [exact H|].
  destruct (optional_inputs_left_out_stay_out
              (JStr "test_user") (JStr "test_pw") (JStr "test_note") JUndefined
              JUndefined (JNum 1) (JNum 2) (JNum 1) (JNum 2) JUndefined JUndefined
              (JNum 50) JUndefined None None (mock (Reply mockData_authorization))
              energomonitorAuthorized) as (A & _ & _ & _ & _ & _ & _ & G).
  split; [exact A|].
  destruct (optional_inputs_left_out_stay_out
              (JStr "test_user") (JStr "test_pw") (JStr "test_note") JUndefined
              JUndefined (JNum 1) (JNum 2) (JNum 1) (JNum 2) JUndefined JUndefined
              (JNum 50) JUndefined None None (mock (Reply (JArr [])))
              energomonitorAuthorized) as (_ & _ & _ & _ & _ & _ & _ & G').
  destruct (G' H) as (_ & B & _ & _ & _).
  split; [exact B|].
  destruct (optional_inputs_left_out_stay_out
              (JStr "test_user") (JStr "test_pw") (JStr "test_note") JUndefined
              JUndefined (JNum 1) (JNum 2) (JNum 1) (JNum 2) JUndefined JUndefined
              (JNum 50) JUndefined None None (mock (Reply JNull))
              energomonitorAuthorized) as (_ & _ & _ & _ & _ & _ & _ & G'').
  destruct (G'' H) as (_ & _ & _ & C & _).
  exact C.
Defined.

(** ** C8: the headers after authorize *)

(** The requests of a call that is not [authorize] go out under the
    session's headers. *)
Lemma gated_call_requests (c : Call) (net : Transport) (st : State) :
  is_authorize c = false ->
  exists new,
    sent (invoke c net st).2 = (sent st ++ new)%list /\
    Forall (fun x => headers (config_of x.2)
                     = Some (_authorizedRequestHeaders (this st))) new.
Proof.
  intros Hc. destruct (is_defined (_token (this st))) eqn:Htok.
  - destruct (marshals c) eqn:Hm.
    + apply is_defined_true in Htok.
      destruct (gated_call_sends c net st Hc Hm Htok) as (r & E & Hr).
      exists [(_axios (this st), r)]. split; [exact E|]. now repeat constructor.
    + exists []. rewrite app_nil_r. split; [|constructor].
      destruct c; try discriminate Hm.
      destruct createdAtFrom as [[?|]|]; try discriminate Hm. reflexivity.
  - apply is_defined_false in Htok. exists []. rewrite app_nil_r.
    split; [|constructor].
    now rewrite (invoke_without_token c net st Hc Htok).
Qed.

Lemma gated_run_requests (calls : list (Transport * Call)) (st : State) :
  Forall (fun nc => is_authorize nc.2 = false) calls ->
  this (run calls st) = this st /\
  exists new,
    sent (run calls st) = (sent st ++ new)%list /\
    Forall (fun x => headers (config_of x.2)
                     = Some (_authorizedRequestHeaders (this st))) new.
Proof.
  intros H. revert st. induction H as [|[net c] calls Hc _ IH]; intros st.
  - split; [reflexivity|]. exists []. now rewrite app_nil_r.
  - cbn [run]. simpl in Hc.
    destruct (IH (invoke c net st).2) as (Ethis & new2 & Esent & Hnew2).
    destruct (gated_call_requests c net st Hc) as (new1 & E1 & Hnew1).
    pose proof (gated_call_keeps_session c net st Hc) as Ekeep.
    split; [congruence|].
    exists (new1 ++ new2)%list. split.
    + rewrite Esent, E1, app_assoc. reflexivity.
    + apply Forall_app. split; [exact Hnew1|]. now rewrite Ekeep in Hnew2.
Qed.

(** C8.  When [authorize] resolves, it resolves to the body of the
    response; the token of the session is the [token] of that body, and the
    headers are [Content-Type: application/json] and [Authorization: Bearer]
    followed by that token (by the token itself when it is a string, by its
    string conversion otherwise).  Whatever the methods other than
    [authorize] send from then on carries exactly these headers. *)
Theorem headers_after_authorize
    (username password note resources validMinutes body : JsValue)
    (net : Transport) (st : State) :
  (authorize username password note resources validMinutes net st).1
  = Resolves body ->
  let st' := (authorize username password note resources validMinutes net st).2 in
  exists token,
    net (_axios (this st))
        (authorize_request username password note resources validMinutes)
    = Reply body /\
    get_prop body "token" = inr token /\
    _token (this st') = token /\
    _authorizedRequestHeaders (this st') =
      [("Content-Type", "application/json");
       ("Authorization", "Bearer " +:+ js_toString token)] /\
    (forall s, token = JStr s ->
               _authorizedRequestHeaders (this st') =
                 [("Content-Type", "application/json");
                  ("Authorization", "Bearer " +:+ s)]) /\
    (forall calls : list (Transport * Call),
       Forall (fun nc => is_authorize nc.2 = false) calls ->
       this (run calls st') = this st' /\
       exists new,
         sent (run calls st') = (sent st' ++ new)%list /\
         Forall (fun x => headers (config_of x.2) =
                   Some [("Content-Type", "application/json");
                         ("Authorization", "Bearer " +:+ js_toString token)])
           new).
Proof.
  intros H st'. subst st'. revert H. rewrite authorize_run. cbv zeta.
  destruct (net _ _) as [data|error]; [|discriminate].
  destruct (get_prop data "token") as [e|token] eqn:Hp; [discriminate|].
  destruct (throws_on_toString token); [discriminate|].
  cbn [fst snd this _token _authorizedRequestHeaders]. intros [= <-].
  exists token. repeat split; try assumption.
  - now intros s ->.
  - now apply gated_run_requests.
  - now apply gated_run_requests.
Qed.

Lemma headers_after_authorize_witness :
  (authorize (JStr "test_user") (JStr "test_pw") JUndefined JUndefined JUndefined
     (mock (Reply mockData_authorization)) energomonitorUnauthorized).1
  = Resolves mockData_authorization /\
  _authorizedRequestHeaders
    (this (authorize (JStr "test_user") (JStr "test_pw") JUndefined JUndefined
             JUndefined (mock (Reply mockData_authorization))
             energomonitorUnauthorized).2) =
  [("Content-Type", "application/json");
   ("Authorization", "Bearer test-123456789")] /\
  Forall (fun nc : Transport * Call => is_authorize nc.2 = false)
    [(mock (Reply JNull), call_getFeed (JNum 1))] /\
  exists new,
    sent (run [(mock (Reply JNull), call_getFeed (JNum 1))]
            (authorize (JStr "test_user") (JStr "test_pw") JUndefined JUndefined
               JUndefined (mock (Reply mockData_authorization))
               energomonitorUnauthorized).2) =
    (sent (authorize (JStr "test_user") (JStr "test_pw") JUndefined JUndefined
             JUndefined (mock (Reply mockData_authorization))
             energomonitorUnauthorized).2 ++ new)%list /\
    Forall (fun x : ref * Request =>
              headers (config_of x.2) =
              Some [("Content-Type", "application/json");
                    ("Authorization", "Bearer test-123456789")]) new.
Proof.
  assert ((authorize (JStr "test_user") (JStr "test_pw") JUndefined JUndefined
             JUndefined (mock (Reply mockData_authorization))
             energomonitorUnauthorized).1
          = Resolves mockData_authorization) as H by reflexivity.
  split; [exact H|].
  destruct (headers_after_authorize _ _ _ _ _ _ _ _ H)
    as (token & _ & Htoken & _ & _ & Hs & Hrun).
  split; [apply Hs; injection Htoken as <-; reflexivity|].
  split; [repeat constructor|].
  destruct (Hrun [(mock (Reply JNull), call_getFeed (JNum 1))]
              ltac:(repeat constructor)) as (_ & new & E & Hnew).
  exists new. split; [exact E|]. injection Htoken as <-. exact Hnew.
Defined.

(** ** C9: the base URL *)

(** C9.  After the constructor has run, the instance the session uses has
    the [apiURL] argument as its [baseURL], or the default URL when the
    argument was left out.  An instance handed in by the caller is that very
    instance, so its previous [baseURL] is gone, whatever it was; an instance
    of the session's own is new; no other instance is touched. *)
Theorem constructor_sets_baseURL (axios_defaults : JsObject)
    (token : JsValue) (axiosInstance : option ref) (apiURL : JsValue)
    (store : gmap ref AxiosInstance) :
  (forall r, axiosInstance = Some r -> is_Some (store !! r)) ->
  let this := (constructor axios_defaults token axiosInstance apiURL store).1 in
  let store' := (constructor axios_defaults token axiosInstance apiURL store).2 in
  (forall r, axiosInstance = Some r -> _axios this = r) /\
  (axiosInstance = None -> store !! _axios this = None) /\
  (exists instance,
     store' !! _axios this = Some instance /\
     obj_get "baseURL" (defaults instance) =
       if is_defined apiURL then apiURL
       else JStr "https://api.energomonitor.com/v1") /\
  (forall r, r <> _axios this -> store' !! r = store !! r).
Proof.
  intros Hin this store'. subst this store'. unfold constructor.
  destruct axiosInstance as [r|]; cbn [fst snd _axios axios_create].
  - destruct (Hin r eq_refl) as [i Hi]. repeat split.
    + now intros ? [= ->].
    + discriminate.
    + eexists. rewrite lookup_alter_eq, Hi. split; [reflexivity|].
      apply obj_get_set.
    + intros r' Hr'. now rewrite lookup_alter_ne.
  - repeat split.
    + discriminate.
    + intros _. apply not_elem_of_dom, is_fresh.
    + eexists. rewrite lookup_alter_eq, lookup_insert_eq. split; [reflexivity|].
      apply obj_get_set.
    + intros r' Hr'. rewrite lookup_alter_ne, lookup_insert_ne by congruence.
      reflexivity.
Qed.

Lemma constructor_sets_baseURL_witness :
  (forall r, Some myAxiosInstance = Some r -> is_Some (test_store !! r)) /\
  (test_store !! myAxiosInstance
   = Some {| defaults := [("baseURL", JStr "original.url")] |}) /\
  _axios (constructor [] JUndefined (Some myAxiosInstance) (JStr "my.api.url")
            test_store).1 = myAxiosInstance /\
  exists instance,
    (constructor [] JUndefined (Some myAxiosInstance) (JStr "my.api.url")
       test_store).2 !! myAxiosInstance = Some instance /\
    obj_get "baseURL" (defaults instance) = JStr "my.api.url".
Proof.
  assert (forall r, Some myAxiosInstance = Some r -> is_Some (test_store !! r)) as H.
  { intros r [= <-]. vm_compute. eauto. }
  split; [exact H|]. split; [reflexivity|].
  destruct (constructor_sets_baseURL [] JUndefined (Some myAxiosInstance)
              (JStr "my.api.url") test_store H) as (E & _ & I & _).
  split; [exact (E _ eq_refl)|]. exact I.
Defined.

(** The scenario of the specification: a second session built on the
    instance of a first one moves the base URL under both. *)
Example second_session_moves_baseURL :
  let '(first, store1) := constructor [] JUndefined None (JStr "first.url") ∅ in
  let '(second, store2) :=
    constructor [] JUndefined (Some (_axios first)) JUndefined store1 in
  _axios second = _axios first /\
  (defaults <$> store1 !! _axios first) = Some [("baseURL", JStr "first.url")] /\
  (defaults <$> store2 !! _axios first)
  = Some [("baseURL", JStr "https://api.energomonitor.com/v1")].
Proof. vm_compute. repeat split. Qed.

(** ** C10: which tokens pass the gate *)

Lemma reaches_gate_marshals (c : Call) :
  reaches_gate c = true -> marshals c = true.
Proof. unfold reaches_gate. now intros [_ H]%andb_prop. Qed.

(** C10.  The gate turns a call away exactly when the token is
    [undefined]: it then returns the rejection without running the thunk,
    and for every other token, [null] and the empty string among them, it
    runs the thunk.  So on a session built with a token (one the constructor
    can build the headers of), a call of a method other than [authorize]
    that comes to the gate (its path and parameters can be built) sends
    nothing if and only
    if that token is [undefined]; otherwise it sends one request, whose
    headers are [Content-Type: application/json] and [Authorization: Bearer]
    followed by the string conversion of the token: ["Bearer null"] for
    [null], ["Bearer "] for the empty string. *)
Theorem gate_turns_away_only_undefined
    (axios_defaults : JsObject) (token apiURL : JsValue)
    (axiosInstance : option ref) (store : gmap ref AxiosInstance)
    (c : Call) (net : Transport) :
  is_authorize c = false ->
  reaches_gate c = true ->
  throws_on_toString token = false ->
  let st :=
    {| this := (constructor axios_defaults token axiosInstance apiURL store).1;
       sent := [] |} in
  (forall (A : Type) (reject : JsValue -> A) (token : JsValue) (f : unit -> A),
     (token = JUndefined ->
      authorizedApiRequest reject token f =
      reject (JStr
        "Cannot call this method without setting the authorization token (in the constructor or using the authorize method).")) /\
     (token <> JUndefined -> authorizedApiRequest reject token f = f tt)) /\
  (token = JUndefined <-> sent (invoke c net st).2 = []) /\
  (token <> JUndefined ->
   exists r,
     sent (invoke c net st).2 = [(_axios (this st), r)] /\
     (js_toString_exact token = true ->
      headers (config_of r) =
        Some [("Content-Type", "application/json");
              ("Authorization", "Bearer " +:+ js_toString token)])) /\
  (js_toString_exact JNull = true /\
   "Bearer " +:+ js_toString JNull = "Bearer null") /\
  (js_toString_exact (JStr "") = true /\
   "Bearer " +:+ js_toString (JStr "") = "Bearer ").
Proof.
  intros Hc Hm%reaches_gate_marshals _ st.
  assert (_token (this st) = token) as Etok
    by (unfold st, constructor; destruct axiosInstance; reflexivity).
  assert (_authorizedRequestHeaders (this st) =
          [("Content-Type", "application/json");
           ("Authorization", "Bearer " +:+ js_toString token)]) as Ehdr
    by (unfold st, constructor; destruct axiosInstance; reflexivity).
  assert (sent st = []) as Esent by reflexivity.
  clearbody st.
  assert (token <> JUndefined ->
          exists r,
            sent (invoke c net st).2 = [(_axios (this st), r)] /\
            (js_toString_exact token = true ->
             headers (config_of r) =
               Some [("Content-Type", "application/json");
                     ("Authorization", "Bearer " +:+ js_toString token)])) as S.
  { intros H. rewrite <- Etok in H.
    destruct (gated_call_sends c net st Hc Hm H) as (r & Hr & Hh).
    exists r. rewrite Hr, Hh, Esent, Ehdr. split; [reflexivity|].
    intros _. reflexivity. }
  split; [|split; [|split; [|split]]].
  - intros A reject token' f. rewrite authorizedApiRequest_cases. split.
    + now intros ->.
    + intros H%is_defined_true. now rewrite H.
  - split.
    + intros H. rewrite <- Etok in H.
      now rewrite (invoke_without_token c net st Hc H).
    + intros H. destruct (is_defined token) eqn:E.
      * apply is_defined_true in E. destruct (S E) as (r & Hr & _).
        rewrite Hr in H. discriminate H.
      * now apply is_defined_false.
  - exact S.
  - split; reflexivity.
  - split; reflexivity.
Qed.

Lemma gate_turns_away_only_undefined_witness :
  is_authorize (call_getFeed (JNum 1)) = false /\
  reaches_gate (call_getFeed (JNum 1)) = true /\
  throws_on_toString JNull = false /\
  JNull <> JUndefined /\
  js_toString_exact JNull = true /\
  exists r,
    sent (invoke (call_getFeed (JNum 1)) (mock (Reply JNull))
            energomonitorNullToken).2 =
    [(_axios (this energomonitorNullToken), r)] /\
    headers (config_of r) =
    Some [("Content-Type", "application/json"); ("Authorization", "Bearer null")].
Proof.
  assert (JNull <> JUndefined) as H by discriminate.
  split; [reflexivity|]. split; [reflexivity|]. split; [reflexivity|].
  split; [exact H|]. split; [reflexivity|].
  destruct (gate_turns_away_only_undefined [] JNull JUndefined None ∅
              (call_getFeed (JNum 1)) (mock (Reply JNull)) eq_refl eq_refl eq_refl)
    as (_ & _ & S & _).
  destruct (S H) as (r & E & Hh).
  exists r. split; [exact E | exact (Hh eq_refl)].
Defined.

(** ** C6: lists in the query string *)

Lemma encode_unreserved (s : string) :
  (forall c, In c (list_ascii_of_string s) -> qs.unreserved c = true) ->
  qs.encode s = s.
Proof.
  induction s as [|c s IH]; intros H; [reflexivity|].
  simpl. rewrite (H c) by (simpl; auto). f_equal. apply IH.
  intros c' Hc'. apply H. simpl. auto.
Qed.

Lemma pretty_N_char_unreserved (x : N) : qs.unreserved (pretty_N_char x) = true.
Proof. unfold pretty_N_char. repeat case_match; reflexivity. Qed.

Lemma pretty_N_go_unreserved (x : N) (s : string) :
  (forall c, In c (list_ascii_of_string s) -> qs.unreserved c = true) ->
  forall c, In c (list_ascii_of_string (pretty_N_go x s)) -> qs.unreserved c = true.
Proof.
  revert s. induction (N.lt_wf_0 x) as [x _ IH]; intros s Hs.
  destruct (decide (0 < x)%N) as [Hx|Hx].
  - rewrite pretty_N_go_step by exact Hx. apply IH.
    + now apply N.div_lt.
    + intros c [<-|Hc]; [apply pretty_N_char_unreserved | now apply Hs].
  - replace x with 0%N by lia. exact Hs.
Qed.

(** The decimal digits of an integer and its sign pass the encoder as they
    are. *)
Lemma encode_pretty (n : Z) : qs.encode (pretty n) = pretty n.
Proof.
  apply encode_unreserved.
  assert (forall p c, In c (list_ascii_of_string (pretty (N.pos p))) ->
                      qs.unreserved c = true) as Hpos.
  { intros p c. unfold pretty, pretty_N. rewrite decide_False by discriminate.
    apply pretty_N_go_unreserved. intros ? []. }
  destruct n as [|p|p]; intros c Hc.
  - destruct Hc as [<-|[]]. reflexivity.
  - exact (Hpos p c Hc).
  - change (pretty (Z.neg p)) with (String "-" (pretty (N.pos p))) in Hc.
    destruct Hc as [<-|Hc]; [reflexivity | exact (Hpos p c Hc)].
Qed.

(** An array of strings under [key]: the key once for each of them. *)
Lemma stringify_strings (key : string) (l : list string) :
  qs.stringify key (JArr (map JStr l)) =
  map (fun s => qs.encode key +:+ "=" +:+ qs.encode s) l.
Proof.
  cbn [qs.stringify]. induction l as [|s l IH]; [reflexivity|].
  cbn [map flat_map qs.stringify js_toString]. now rewrite IH.
Qed.

Lemma stringify_numbers (key : string) (l : list Z) :
  qs.stringify key (JArr (map JNum l)) =
  map (fun n => qs.encode key +:+ "=" +:+ pretty n) l.
Proof.
  cbn [qs.stringify]. induction l as [|n l IH]; [reflexivity|].
  cbn [map flat_map qs.stringify js_toString]. now rewrite IH, encode_pretty.
Qed.

(** C6 as the specification words it, for every list value, fails on the
    lists whose elements are not strings or numbers.  On the session of the
    test suite that holds a token, the list [[undefined, "raw"]] of two
    elements gives the key once, the list [[["raw", "processed"]]] of one
    element gives it twice, and the list [[{a: "b"}]] gives a bracketed key,
    percent-escaped: the serializer skips an [undefined] element, flattens a
    list inside the list and descends into an object. *)
Lemma getStreams_lists_of_other_elements :
  _token (this energomonitorAuthorized) <> JUndefined /\
  (exists config,
     sent (getStreams (JNum 1) (JArr [JUndefined; JStr "raw"]) JUndefined
             None None (mock (Reply (JArr []))) energomonitorAuthorized).2 =
     [(1%positive, axios_get "/feeds/1/streams" config)] /\
     query_string (fun _ => "") config = "type=raw") /\
  (exists config,
     sent (getStreams (JNum 1) (JArr [JArr [JStr "raw"; JStr "processed"]])
             JUndefined None None (mock (Reply (JArr [])))
             energomonitorAuthorized).2 =
     [(1%positive, axios_get "/feeds/1/streams" config)] /\
     query_string (fun _ => "") config = "type=raw&type=processed") /\
  (exists config,
     sent (getStreams (JNum 1) (JArr [JObj [("a", JStr "b")]]) JUndefined
             None None (mock (Reply (JArr []))) energomonitorAuthorized).2 =
     [(1%positive, axios_get "/feeds/1/streams" config)] /\
     query_string (fun _ => "") config = "type%5Ba%5D=b").
Proof.
  split; [discriminate|].
  split; [|split]; eexists; (split; [reflexivity | vm_compute; reflexivity]).
Qed.

(** C6, as the code has it.  [getStreams] hands its list arguments to the
    transport as they are and brings its own serializer, which takes the
    place of the transport's default, whatever that is (the feed is named
    by an identifier that converts to a string): a list of strings as types
    goes out as [type=] once for each element, a list of integers
    as channels (safe integers, which print in decimal) as [channel=] once
    for each element, all joined by [&], with the two dates after them;
    strings are percent-escaped.  So [["raw", "processed"]] gives
    [type=raw&type=processed] and [[1, 2, 3]] gives
    [channel=1&channel=2&channel=3]. *)
Theorem getStreams_repeats_keys
    (feedId : JsValue) (types : list string) (channels : list Z)
    (dataTimeFrom dataTimeTo : option JsDate)
    (default : JsObject -> string) (net : Transport) (st : State) :
  _token (this st) <> JUndefined ->
  js_toString_exact feedId = true ->
  Forall (fun n => safe_integer n = true) channels ->
  (exists config,
     sent (getStreams feedId (JArr (map JStr types)) (JArr (map JNum channels))
             dataTimeFrom dataTimeTo net st).2 =
     (sent st ++
      [(_axios (this st),
        axios_get ("/feeds/" +:+ js_toString feedId +:+ "/streams") config)])%list /\
     obj_get "type" (default_params config) = JArr (map JStr types) /\
     obj_get "channel" (default_params config) = JArr (map JNum channels) /\
     query_string default config =
     String.concat "&"
       (map (fun s => "type=" +:+ qs.encode s) types ++
        map (fun n => "channel=" +:+ pretty n) channels ++
        qs.stringify "data_time_from" (converted dateToTimestamp dataTimeFrom) ++
        qs.stringify "data_time_to" (converted dateToTimestamp dataTimeTo))%list) /\
  (exists config,
     sent (getStreams feedId (JArr [JStr "raw"; JStr "processed"]) JUndefined
             None None net st).2 =
     (sent st ++
      [(_axios (this st),
        axios_get ("/feeds/" +:+ js_toString feedId +:+ "/streams") config)])%list /\
     query_string default config = "type=raw&type=processed") /\
  (exists config,
     sent (getStreams feedId JUndefined (JArr [JNum 1; JNum 2; JNum 3])
             None None net st).2 =
     (sent st ++
      [(_axios (this st),
        axios_get ("/feeds/" +:+ js_toString feedId +:+ "/streams") config)])%list /\
     query_string default config = "channel=1&channel=2&channel=3").
Proof.
  intros Htok _ _. split; [|split].
  - eexists. split; [apply getStreams_sends, Htok|].
    unfold query_string, default_params; cbn [params paramsSerializer].
    assert (getStreams_params (JArr (map JStr types)) (JArr (map JNum channels))
              dataTimeFrom dataTimeTo =
            [("type", JArr (map JStr types)); ("channel", JArr (map JNum channels))]
            ++ omitUndefinedBuilder
                 [("data_time_from", converted dateToTimestamp dataTimeFrom);
                  ("data_time_to", converted dateToTimestamp dataTimeTo)])%list
      as ->.
    { rewrite getStreams_params_built. reflexivity. }
    split; [reflexivity|]. split; [reflexivity|].
    unfold qs.stringify_no_indices. f_equal.
    rewrite flat_map_app. cbn [flat_map fst snd].
    rewrite stringify_strings, stringify_numbers, app_nil_r, <- app_assoc.
    f_equal. f_equal.
    destruct dataTimeFrom as [[?|]|], dataTimeTo as [[?|]|]; reflexivity.
  - eexists. split; [apply getStreams_sends, Htok|]. reflexivity.
  - eexists. split; [apply getStreams_sends, Htok|]. reflexivity.
Qed.

Lemma getStreams_repeats_keys_witness :
  _token (this energomonitorAuthorized) <> JUndefined /\
  js_toString_exact (JNum 1) = true /\
  Forall (fun n => safe_integer n = true) [1; 2] /\
  exists config,
    sent (getStreams (JNum 1) (JArr (map JStr ["raw"; "processed"]))
            (JArr (map JNum [1; 2])) None None (mock (Reply (JArr [])))
            energomonitorAuthorized).2 =
    [(1%positive, axios_get "/feeds/1/streams" config)] /\
    query_string (fun _ => "type[]=raw&type[]=processed&channel[]=1&channel[]=2")
      config
    = "type=raw&type=processed&channel=1&channel=2".
Proof.
  assert (_token (this energomonitorAuthorized) <> JUndefined) as H by discriminate.
  assert (Forall (fun n => safe_integer n = true) [1; 2]) as S
    by (repeat constructor).
  split; [exact H|]. split; [reflexivity|]. split; [exact S|].
  destruct (getStreams_repeats_keys (JNum 1) ["raw"; "processed"] [1; 2] None None
              (fun _ => "type[]=raw&type[]=processed&channel[]=1&channel[]=2")
              (mock (Reply (JArr []))) energomonitorAuthorized H eq_refl S)
    as ((config & E & _ & _ & Q) & _).
  exists config. split; [exact E | exact Q].
Defined.

(** What the serializer does with the other shapes a caller could pass. *)
Example stringify_other_shapes :
  qs.stringify_no_indices
    [("type", JStr "raw data"); ("channel", JArr [JNum 1; JNull; JUndefined]);
     ("a", JArr [JArr [JNum 1; JNum 2]; JObj [("b", JStr "c")]]); ("n", JNaN)]
  = "type=raw%20data&channel=1&channel=&a=1&a=2&a%5Bb%5D=c&n=NaN".
Proof. vm_compute. reflexivity. Qed.

(** * Further properties of the code *)

(** ** What a call resolves to *)

(** With a token and arguments that marshal, a method other than
    [authorize] and [updateNotifications] sends one request; its promise
    resolves to the [data] of the response, whatever that is, and is
    rejected with the error of the transport, untouched, when the transport
    fails. *)
Theorem gated_call_outcome (c : Call) (net : Transport) (st : State) :
  is_authorize c = false ->
  marshals c = true ->
  (forall userId data, c <> call_updateNotifications userId data) ->
  _token (this st) <> JUndefined ->
  exists r,
    (invoke c net st).2 =
      {| this := this st; sent := sent st ++ [(_axios (this st), r)] |} /\
    (invoke c net st).1 =
      match net (_axios (this st)) r with
      | Reply data => Resolves data
      | Failure error => Rejects error
      end.
Proof.
  intros Hc Hm Hu H%is_defined_true.
  destruct c; try discriminate Hc;
    try (now destruct (Hu userId data));
    run_method;
    try (destruct createdAtFrom as [[t|]|]; try discriminate Hm; simpl; run_method);
    rewrite H;
    match goal with |- context [net ?a ?r] => exists r end;
    destruct (net _ _); split; reflexivity.
Qed.

Lemma gated_call_outcome_witness :
  is_authorize (call_getFeed (JNum 1)) = false /\
  marshals (call_getFeed (JNum 1)) = true /\
  (forall userId data, call_getFeed (JNum 1) <> call_updateNotifications userId data) /\
  _token (this energomonitorAuthorized) <> JUndefined /\
  (invoke (call_getFeed (JNum 1)) (mock (Failure (JStr "404")))
     energomonitorAuthorized).1 = Rejects (JStr "404").
Proof.
  assert (forall userId data,
            call_getFeed (JNum 1) <> call_updateNotifications userId data) as Hu
    by discriminate.
  assert (_token (this energomonitorAuthorized) <> JUndefined) as H by discriminate.
  split; [reflexivity|]. split; [reflexivity|]. split; [exact Hu|]. split; [exact H|].
  destruct (gated_call_outcome (call_getFeed (JNum 1)) (mock (Failure (JStr "404")))
              energomonitorAuthorized eq_refl eq_refl Hu H) as (r & _ & E).
  exact E.
Defined.

(** With a token, [updateNotifications] sends one PATCH with [data] as its
    body ([undefined] when [data] was left out) and resolves to [null]
    whatever the response holds; a failure of the transport still rejects
    it. *)
Theorem updateNotifications_resolves_null
    (userId data : JsValue) (net : Transport) (st : State) :
  _token (this st) <> JUndefined ->
  let r := axios_patch ("/users/" +:+ js_toString userId +:+ "/notifications") data
             (only_headers (_authorizedRequestHeaders (this st))) in
  (updateNotifications userId data net st).2 =
    {| this := this st; sent := sent st ++ [(_axios (this st), r)] |} /\
  (updateNotifications userId data net st).1 =
    match net (_axios (this st)) r with
    | Reply _ => Resolves JNull
    | Failure error => Rejects error
    end.
Proof.
  intros H%is_defined_true r. subst r. run_method. rewrite H.
  split; destruct (net _ _); reflexivity.
Qed.

Lemma updateNotifications_resolves_null_witness :
  _token (this energomonitorAuthorized) <> JUndefined /\
  (updateNotifications (JNum 1) JUndefined
     (mock (Reply (JObj [("read", JBool true)]))) energomonitorAuthorized).1
  = Resolves JNull.
Proof.
  assert (_token (this energomonitorAuthorized) <> JUndefined) as H by discriminate.
  split; [exact H|].
  exact (proj2 (updateNotifications_resolves_null (JNum 1) JUndefined
                  (mock (Reply (JObj [("read", JBool true)])))
                  energomonitorAuthorized H)).
Defined.

(** ** How many requests, and of what kind *)

(** A call of any method, on any session, adds to the requests already made
    and makes at most one: exactly one when it is [authorize], or when the
    session has a token and the arguments marshal, none otherwise; and it
    makes it on the session's own axios instance. *)
Theorem call_sends_at_most_one (c : Call) (net : Transport) (st : State) :
  exists new,
    sent (invoke c net st).2 = (sent st ++ new)%list /\
    List.length new =
      (if is_authorize c || is_defined (_token (this st)) && marshals c
       then 1 else 0)%nat /\
    Forall (fun x => x.1 = _axios (this st)) new.
Proof.
  destruct (is_authorize c) eqn:Hc.
  - destruct c; try discriminate Hc. unfold invoke. rewrite authorize_run. cbv zeta.
    exists [(_axios (this st),
             authorize_request username password note resources validMinutes)].
    split; [|split; [reflexivity | repeat constructor]].
    destruct (net _ _) as [d|e];
      [destruct (get_prop d "token") as [?|tok];
       [|destruct (throws_on_toString tok)]|]; reflexivity.
  - destruct (is_defined (_token (this st))) eqn:Htok.
    + destruct (marshals c) eqn:Hm.
      * apply is_defined_true in Htok.
        destruct (gated_call_sends c net st Hc Hm Htok) as (r & E & _).
        exists [(_axios (this st), r)].
        split; [exact E|]. split; [reflexivity | repeat constructor].
      * exists []. rewrite app_nil_r. split; [|split; [reflexivity | constructor]].
        destruct c; try discriminate Hm.
        destruct createdAtFrom as [[?|]|]; try discriminate Hm. reflexivity.
    + apply is_defined_false in Htok. exists []. rewrite app_nil_r.
      split; [|split; [reflexivity | constructor]].
      now rewrite (invoke_without_token c net st Hc Htok).
Qed.

(** Whatever the call and the session, a request carries one kind of
    credentials and never both: [authorize] posts to [/authorizations] with
    the Basic credentials, no headers and no query; every other method sends
    the session's headers and no Basic credentials, by [PATCH] when it is an
    update and by [GET] otherwise. *)
Theorem request_credentials_exclusive (c : Call) (net : Transport) (st : State) :
  exists new,
    sent (invoke c net st).2 = (sent st ++ new)%list /\
    Forall (fun x =>
      match auth (config_of x.2), headers (config_of x.2) with
      | Some _, None =>
          is_authorize c = true /\ verb_of x.2 = POST /\
          url_of x.2 = "/authorizations" /\ params (config_of x.2) = None
      | None, Some h =>
          is_authorize c = false /\ h = _authorizedRequestHeaders (this st) /\
          verb_of x.2 = (if is_update c then PATCH else GET)
      | _, _ => False
      end) new.
Proof.
  destruct (is_authorize c) eqn:Hc.
  - destruct c; try discriminate Hc. unfold invoke. rewrite authorize_run. cbv zeta.
    exists [(_axios (this st),
             authorize_request username password note resources validMinutes)].
    split.
    + destruct (net _ _) as [d|e];
      [destruct (get_prop d "token") as [?|tok];
       [|destruct (throws_on_toString tok)]|]; reflexivity.
    + repeat constructor.
  - destruct (is_defined (_token (this st))) eqn:Htok.
    + destruct c; try discriminate Hc; run_method; rewrite ?Htok;
        try (eexists [_]; split; [destruct (net _ _); reflexivity|];
             repeat constructor).
      destruct createdAtFrom as [[t|]|]; simpl; run_method; rewrite ?Htok.
      * eexists [_]. split; [destruct (net _ _); reflexivity|]. repeat constructor.
      * exists []. rewrite app_nil_r. split; [reflexivity | constructor].
      * eexists [_]. split; [destruct (net _ _); reflexivity|]. repeat constructor.
    + apply is_defined_false in Htok. exists []. rewrite app_nil_r.
      split; [|constructor].
      now rewrite (invoke_without_token c net st Hc Htok).
Qed.

(** ** What a session keeps through its life *)

Lemma js_toString_exact_returns (v : JsValue) :
  js_toString_exact v = true -> throws_on_toString v = false.
Proof.
  unfold js_toString_exact. now destruct (throws_on_toString v).
Qed.

Lemma invoke_keeps_headers_in_step (c : Call) (net : Transport) (st : State) :
  (throws_on_toString (_token (this st)) = false ->
   _authorizedRequestHeaders (this st)
   = buildAuthorizedRequestHeaders (_token (this st))) ->
  throws_on_toString (_token (this (invoke c net st).2)) = false ->
  _authorizedRequestHeaders (this (invoke c net st).2) =
  buildAuthorizedRequestHeaders (_token (this (invoke c net st).2)).
Proof.
  intros H. destruct (is_authorize c) eqn:Hc.
  - destruct c; try discriminate Hc. unfold invoke. rewrite authorize_run. cbv zeta.
    destruct (net _ _) as [d|e]; [|exact H].
    destruct (get_prop d "token") as [?|tok]; [exact H|].
    destruct (throws_on_toString tok) eqn:Ht; cbn [snd this _token]; [|reflexivity].
    congruence.
  - now rewrite gated_call_keeps_session.
Qed.

Lemma invoke_keeps_axios (c : Call) (net : Transport) (st : State) :
  _axios (this (invoke c net st).2) = _axios (this st).
Proof.
  destruct (is_authorize c) eqn:Hc.
  - destruct c; try discriminate Hc. unfold invoke. rewrite authorize_run. cbv zeta.
    destruct (net _ _) as [d|e];
      [destruct (get_prop d "token") as [?|tok];
       [|destruct (throws_on_toString tok)]|]; reflexivity.
  - now rewrite gated_call_keeps_session.
Qed.

Lemma invoke_sends_on_own_instance (c : Call) (net : Transport) (st : State) :
  exists new,
    sent (invoke c net st).2 = (sent st ++ new)%list /\
    Forall (fun x => x.1 = _axios (this st)) new.
Proof.
  destruct (is_authorize c) eqn:Hc.
  - destruct c; try discriminate Hc. unfold invoke. rewrite authorize_run. cbv zeta.
    exists [(_axios (this st),
             authorize_request username password note resources validMinutes)].
    split; [|repeat constructor].
    destruct (net _ _) as [d|e];
      [destruct (get_prop d "token") as [?|tok];
       [|destruct (throws_on_toString tok)]|]; reflexivity.
  - destruct (gated_call_requests c net st Hc) as (new & E & _).
    exists new. split; [exact E|].
    destruct (is_defined (_token (this st))) eqn:Htok.
    + destruct (marshals c) eqn:Hm.
      * apply is_defined_true in Htok.
        destruct (gated_call_sends c net st Hc Hm Htok) as (r & E' & _).
        rewrite E' in E. apply app_inv_head in E. subst new. repeat constructor.
      * assert (invoke c net st = (Throws RangeError, st)) as E'.
        { destruct c; try discriminate Hm.
          destruct createdAtFrom as [[?|]|]; try discriminate Hm. reflexivity. }
        rewrite E' in E. cbn [snd] in E.
        rewrite <- (app_nil_r (sent st)) in E at 1. apply app_inv_head in E.
        subst new. constructor.
    + apply is_defined_false in Htok.
      rewrite (invoke_without_token c net st Hc Htok) in E. cbn [snd] in E.
      rewrite <- (app_nil_r (sent st)) in E at 1. apply app_inv_head in E.
      subst new. constructor.
Qed.

(** The headers of a session are the ones of its token whenever the token
    is one that converts to a string: the constructor builds them from the
    token it is given, [authorize] rebuilds them when it stores a new token,
    and nothing else writes either of them.  So after any sequence of calls,
    whatever the transport answered, a session whose token converts sends
    the headers of that token.  The two part in one way only: an [authorize]
    reply with a token on which the conversion throws is stored as the token,
    the promise rejects with the [TypeError], and the headers stay those of
    the token before (the body [{"token": {"toString": 1}}] on the session of
    the test suite). *)
Theorem headers_follow_token_that_converts
    (axios_defaults : JsObject) (token apiURL : JsValue)
    (axiosInstance : option ref) (store : gmap ref AxiosInstance)
    (calls : list (Transport * Call)) :
  let st :=
    run calls
      {| this := (constructor axios_defaults token axiosInstance apiURL store).1;
         sent := [] |} in
  (js_toString_exact (_token (this st)) = true ->
   _authorizedRequestHeaders (this st) =
   [("Content-Type", "application/json");
    ("Authorization", "Bearer " +:+ js_toString (_token (this st)))]) /\
  (let reply := JObj [("token", JObj [("toString", JNum 1)])] in
   let r := authorize (JStr "test_user") (JStr "test_pw") JUndefined JUndefined
              JUndefined (mock (Reply reply)) energomonitorAuthorized in
   r.1 = RejectsWith TypeError /\
   _token (this r.2) = JObj [("toString", JNum 1)] /\
   _authorizedRequestHeaders (this r.2) =
   [("Content-Type", "application/json"); ("Authorization", "Bearer my-token")]).
Proof.
  cbv zeta. split; [|repeat split].
  intros Hx%js_toString_exact_returns. revert Hx.
  assert (let st0 := {| this := (constructor axios_defaults token axiosInstance
                                   apiURL store).1;
                        sent := [] |} in
          throws_on_toString (_token (this st0)) = false ->
          _authorizedRequestHeaders (this st0)
          = buildAuthorizedRequestHeaders (_token (this st0))) as H0
    by (unfold constructor; destruct axiosInstance; reflexivity).
  cbv zeta in H0. revert H0.
  generalize {| this := (constructor axios_defaults token axiosInstance apiURL
                           store).1;
                sent := [] |}.
  induction calls as [|[net c] calls IH]; intros st H; [exact H|].
  cbn [run]. apply IH. now apply invoke_keeps_headers_in_step.
Qed.

Lemma headers_follow_token_that_converts_witness :
  let st :=
    run [(mock (Reply mockData_authorization),
          call_authorize (JStr "test_user") (JStr "test_pw") JUndefined
            JUndefined JUndefined);
         (mock (Failure (JStr "404")), call_getUser (JNum 1))]
      {| this := (constructor [] JUndefined (Some myAxiosInstance) JUndefined
                    test_store).1;
         sent := [] |} in
  js_toString_exact (_token (this st)) = true /\
  _authorizedRequestHeaders (this st) =
  [("Content-Type", "application/json");
   ("Authorization", "Bearer test-123456789")].
Proof.
  split; [reflexivity|].
  exact (proj1 (headers_follow_token_that_converts [] JUndefined JUndefined
                  (Some myAxiosInstance) test_store
                  [(mock (Reply mockData_authorization),
                    call_authorize (JStr "test_user") (JStr "test_pw") JUndefined
                      JUndefined JUndefined);
                   (mock (Failure (JStr "404")), call_getUser (JNum 1))])
           eq_refl).
Defined.

(** The axios instance of a session never changes: after any sequence of
    calls [getAxiosInstance] still returns the instance the constructor
    settled on (the caller's own when one was passed), without sending
    anything or changing the session, and every request of the session was
    made on that instance. *)
Theorem axios_instance_never_changes
    (axios_defaults : JsObject) (token apiURL : JsValue)
    (axiosInstance : option ref) (store : gmap ref AxiosInstance)
    (calls : list (Transport * Call)) (net : Transport) :
  let this0 := (constructor axios_defaults token axiosInstance apiURL store).1 in
  let st := run calls {| this := this0; sent := [] |} in
  getAxiosInstance net st = (_axios this0, st) /\
  _axios this0 = default (fresh (dom store)) axiosInstance /\
  Forall (fun x => x.1 = _axios this0) (sent st).
Proof.
  cbv zeta.
  set (this0 := (constructor axios_defaults token axiosInstance apiURL store).1).
  assert (forall st,
            _axios (this (run calls st)) = _axios (this st) /\
            (Forall (fun x => x.1 = _axios (this st)) (sent st) ->
             Forall (fun x => x.1 = _axios (this st)) (sent (run calls st)))) as R.
  { induction calls as [|[n c] calls IH]; intros st; [now split|].
    cbn [run]. destruct (IH (invoke c n st).2) as [E F].
    rewrite invoke_keeps_axios in E, F. split; [exact E|].
    intros Hs. apply F.
    destruct (invoke_sends_on_own_instance c n st) as (new & -> & Hnew).
    apply Forall_app. now split. }
  destruct (R {| this := this0; sent := [] |}) as [E F]. cbn [this sent] in E, F.
  split; [|split].
  - unfold getAxiosInstance, mbind, M_bind, mret, M_ret, get_this. now rewrite E.
  - unfold this0, constructor. destruct axiosInstance; reflexivity.
  - apply F. constructor.
Qed.

(** ** More on the constructor *)

Lemma obj_get_set_ne (k k' : string) (v : JsValue) (o : JsObject) :
  k <> k' -> obj_get k (obj_set k' v o) = obj_get k o.
Proof.
  intros Hne. induction o as [|[k0 v0] o IH]; simpl.
  - destruct (String.eqb_spec k k'); [contradiction | reflexivity].
  - destruct (String.eqb_spec k' k0) as [->|]; simpl.
    + destruct (String.eqb_spec k k0); [contradiction | reflexivity].
    + destruct (String.eqb_spec k k0); [reflexivity | exact IH].
Qed.

Lemma obj_set_set (k : string) (v1 v2 : JsValue) (o : JsObject) :
  obj_set k v2 (obj_set k v1 o) = obj_set k v2 o.
Proof.
  induction o as [|[k0 v0] o IH]; simpl.
  - now rewrite String.eqb_refl.
  - destruct (String.eqb k k0) eqn:E; simpl.
    + now rewrite String.eqb_refl.
    + now rewrite E, IH.
Qed.

Lemma obj_keys_set (k : string) (v : JsValue) (o : JsObject) :
  obj_keys (obj_set k v o) =
  if existsb (String.eqb k) (obj_keys o) then obj_keys o
  else (obj_keys o ++ [k])%list.
Proof.
  unfold obj_keys. induction o as [|[k0 v0] o IH]; simpl; [reflexivity|].
  destruct (String.eqb_spec k k0) as [->|]; simpl; [reflexivity|].
  rewrite IH. now destruct (existsb (String.eqb k) (map fst o)).
Qed.

(** Two sessions built without an axios instance never share one: the
    second gets an instance the first does not have, and building it leaves
    the instance of the first, base URL included, as it was. *)
Theorem default_sessions_do_not_share
    (axios_defaults : JsObject) (token1 apiURL1 token2 apiURL2 : JsValue)
    (store : gmap ref AxiosInstance) :
  let first := constructor axios_defaults token1 None apiURL1 store in
  let second := constructor axios_defaults token2 None apiURL2 first.2 in
  _axios second.1 <> _axios first.1 /\
  second.2 !! _axios first.1 = first.2 !! _axios first.1 /\
  (defaults <$> second.2 !! _axios first.1) =
    Some (obj_set "baseURL"
            (if is_defined apiURL1 then apiURL1 else JStr DEFAULT_API_URL)
            axios_defaults).
Proof.
  cbv zeta. unfold constructor, axios_create. cbn [fst snd _axios].
  set (r1 := fresh (dom store)).
  set (σ1 := alter _ r1 (<[r1 := _]> store)).
  set (r2 := fresh (dom σ1)).
  assert (is_Some (σ1 !! r1)) as In1.
  { unfold σ1. rewrite lookup_alter_eq, lookup_insert_eq. eauto. }
  assert (r2 <> r1) as Hne.
  { intros E. apply (is_fresh (dom σ1)). fold r2. rewrite E.
    now apply elem_of_dom. }
  split; [exact Hne|]. split.
  - now rewrite lookup_alter_ne, lookup_insert_ne by exact Hne.
  - rewrite lookup_alter_ne, lookup_insert_ne by exact Hne.
    unfold σ1. now rewrite lookup_alter_eq, lookup_insert_eq.
Qed.

(** On an instance handed in by the caller the constructor writes
    [baseURL] and nothing else: every other default of the instance reads
    as before, and the keys of [defaults] are the same, with [baseURL]
    added last if it was not among them. *)
Theorem constructor_keeps_other_defaults
    (axios_defaults : JsObject) (token apiURL : JsValue) (r : ref)
    (instance : AxiosInstance) (store : gmap ref AxiosInstance) :
  store !! r = Some instance ->
  exists instance',
    (constructor axios_defaults token (Some r) apiURL store).2 !! r
    = Some instance' /\
    (forall k, k <> "baseURL" ->
               obj_get k (defaults instance') = obj_get k (defaults instance)) /\
    obj_keys (defaults instance') =
      if existsb (String.eqb "baseURL") (obj_keys (defaults instance))
      then obj_keys (defaults instance)
      else (obj_keys (defaults instance) ++ ["baseURL"])%list.
Proof.
  intros H. unfold constructor. cbn [snd].
  eexists. rewrite lookup_alter_eq, H. split; [reflexivity|]. cbn [defaults]. split.
  - intros k Hk. now apply obj_get_set_ne.
  - apply obj_keys_set.
Qed.

Lemma constructor_keeps_other_defaults_witness :
  configured_store !! myAxiosInstance
  = Some {| defaults := [("timeout", JNum 1000); ("baseURL", JStr "original.url")] |}
  /\
  exists instance',
    (constructor [] JUndefined (Some myAxiosInstance) (JStr "my.api.url")
       configured_store).2 !! myAxiosInstance = Some instance' /\
    obj_get "timeout" (defaults instance') = JNum 1000 /\
    obj_keys (defaults instance') = ["timeout"; "baseURL"].
Proof.
  assert (configured_store !! myAxiosInstance
          = Some {| defaults := [("timeout", JNum 1000);
                                 ("baseURL", JStr "original.url")] |}) as H
    by reflexivity.
  split; [exact H|].
  destruct (constructor_keeps_other_defaults [] JUndefined (JStr "my.api.url")
              myAxiosInstance _ _ H) as (i' & E & G & K).
  exists i'. split; [exact E|]. split; [|exact K].
  exact (G "timeout" ltac:(discriminate)).
Defined.

(** When sessions are built one after the other on the same instance, the
    last [apiURL] is the one that stays: the store is what building the
    last session alone would have left, so no trace of the earlier
    [apiURL] remains, and both sessions send through that one instance. *)
Theorem last_apiURL_wins
    (axios_defaults : JsObject) (token1 apiURL1 token2 apiURL2 : JsValue)
    (r : ref) (store : gmap ref AxiosInstance) :
  let first := constructor axios_defaults token1 (Some r) apiURL1 store in
  let second := constructor axios_defaults token2 (Some r) apiURL2 first.2 in
  second.2 = (constructor axios_defaults token2 (Some r) apiURL2 store).2 /\
  _axios first.1 = r /\ _axios second.1 = r.
Proof.
  cbv zeta. unfold constructor. cbn [fst snd _axios].
  split; [|split; reflexivity].
  apply map_eq. intros i. destruct (decide (i = r)) as [->|Hne].
  - rewrite !lookup_alter_eq. destruct (store !! r) as [inst|]; [|reflexivity].
    cbn. now rewrite obj_set_set.
  - now rewrite !lookup_alter_ne by congruence.
Qed.

(** ** More on timestamps *)

(** The conversion keeps the order of dates: a date that is not later is
    sent as a timestamp that is not larger, so a caller's [timeFrom] before
    [timeTo] never arrives as a reversed range. *)
Theorem dateToTimestamp_monotone (t1 t2 : Z) :
  t1 <= t2 ->
  exists n1 n2,
    dateToTimestamp (DateOf t1) = JNum n1 /\
    dateToTimestamp (DateOf t2) = JNum n2 /\
    n1 <= n2.
Proof.
  intros H. exists ((t1 + 500) / 1000), ((t2 + 500) / 1000).
  rewrite !dateToTimestamp_eq. split; [reflexivity|]. split; [reflexivity|].
  apply Z.div_le_mono; lia.
Qed.

Lemma dateToTimestamp_monotone_witness :
  1444626600499 <= 1444626600500 /\
  exists n1 n2,
    dateToTimestamp (DateOf 1444626600499) = JNum n1 /\
    dateToTimestamp (DateOf 1444626600500) = JNum n2 /\
    n1 <= n2.
Proof.
  assert (1444626600499 <= 1444626600500) as H by lia.
  split; [exact H|]. exact (dateToTimestamp_monotone _ _ H).
Defined.

(** The timestamp of a valid date is a whole number of seconds that is at
    most half a second away from the date and as near to it as any whole
    second is; converting the date that timestamp names gives the timestamp
    back, so dates on a whole second lose nothing. *)
Theorem dateToTimestamp_nearest_second (t : Z) :
  exists n,
    dateToTimestamp (DateOf t) = JNum n /\
    t - 500 < 1000 * n <= t + 500 /\
    (forall m, Z.abs (1000 * n - t) <= Z.abs (1000 * m - t)) /\
    dateToTimestamp (DateOf (1000 * n)) = JNum n.
Proof.
  exists ((t + 500) / 1000). rewrite !dateToTimestamp_eq.
  split; [reflexivity|].
  assert (t - 500 < 1000 * ((t + 500) / 1000) <= t + 500) as B
    by (Z.div_mod_to_equations; lia).
  split; [exact B|]. split.
  - intros m. destruct (Z.le_gt_cases m ((t + 500) / 1000)) as [Hm|Hm].
    + destruct (Z.eq_dec m ((t + 500) / 1000)) as [->|]; lia.
    + lia.
  - f_equal. Z.div_mod_to_equations; lia.
Qed.

(** ** More on authorize *)

(** When the transport answers [authorize] with a body of [null] or
    [undefined], reading its [token] throws inside the callback: the
    promise is rejected with a [TypeError], the request has been made, and
    the token and headers of the session are what they were. *)
Theorem authorize_without_body_rejects
    (username password note resources validMinutes data : JsValue)
    (net : Transport) (st : State) :
  net (_axios (this st))
      (authorize_request username password note resources validMinutes)
  = Reply data ->
  data = JNull \/ data = JUndefined ->
  authorize username password note resources validMinutes net st =
  (RejectsWith TypeError,
   {| this := this st;
      sent := sent st ++
              [(_axios (this st),
                authorize_request username password note resources validMinutes)] |}).
Proof.
  intros H D. rewrite authorize_run. cbv zeta. rewrite H.
  destruct D as [-> | ->]; reflexivity.
Qed.

Lemma authorize_without_body_rejects_witness :
  mock (Reply JNull) (_axios (this energomonitorAuthorized))
    (authorize_request (JStr "test_user") (JStr "test_pw") JUndefined JUndefined
       JUndefined) = Reply JNull /\
  (JNull = JNull \/ JNull = JUndefined) /\
  (authorize (JStr "test_user") (JStr "test_pw") JUndefined JUndefined JUndefined
     (mock (Reply JNull)) energomonitorAuthorized).1 = RejectsWith TypeError /\
  this (authorize (JStr "test_user") (JStr "test_pw") JUndefined JUndefined
          JUndefined (mock (Reply JNull)) energomonitorAuthorized).2
  = this energomonitorAuthorized.
Proof.
  assert (JNull = JNull \/ JNull = JUndefined) as D by (left; reflexivity).
  split; [reflexivity|]. split; [exact D|].
  rewrite (authorize_without_body_rejects (JStr "test_user") (JStr "test_pw")
             JUndefined JUndefined JUndefined JNull (mock (Reply JNull))
             energomonitorAuthorized eq_refl D).
  split; reflexivity.
Defined.

(** [authorize] opens the gate, and the newest token is the one the gate
    looks at: whatever the session held before, once [authorize] has been
    answered with a body whose [token] is not [undefined], a call of another
    method that comes to the gate sends one request, after the one of
    [authorize].  When the token converts to a string, [authorize] has
    resolved and the request goes under the headers of that token.  When the
    conversion throws (a token that is an object with a [toString] entry),
    [authorize] has rejected with the [TypeError], and the request goes
    under the headers the session had before: the token was stored before
    the headers were built. *)
Theorem authorize_opens_gate
    (username password note resources validMinutes data token : JsValue)
    (c : Call) (net net' : Transport) (st : State) :
  net (_axios (this st))
      (authorize_request username password note resources validMinutes)
  = Reply data ->
  get_prop data "token" = inr token ->
  token <> JUndefined ->
  is_authorize c = false ->
  reaches_gate c = true ->
  let st' := (authorize username password note resources validMinutes net st).2 in
  exists r,
    sent (invoke c net' st').2 =
    (sent st ++
     [(_axios (this st),
       authorize_request username password note resources validMinutes);
      (_axios (this st), r)])%list /\
    _token (this (invoke c net' st').2) = token /\
    (js_toString_exact token = true ->
     (authorize username password note resources validMinutes net st).1
     = Resolves data /\
     headers (config_of r) =
       Some [("Content-Type", "application/json");
             ("Authorization", "Bearer " +:+ js_toString token)]) /\
    (throws_on_toString token = true ->
     (authorize username password note resources validMinutes net st).1
     = RejectsWith TypeError /\
     headers (config_of r) = Some (_authorizedRequestHeaders (this st))).
Proof.
  intros H Hp Htok Hc Hm%reaches_gate_marshals st'. subst st'.
  rewrite authorize_run. cbv zeta. rewrite H, Hp.
  destruct (throws_on_toString token) eqn:Ht; cbn [fst snd];
    match goal with
    | |- context [invoke c net' ?s] =>
        destruct (gated_call_sends c net' s Hc Hm Htok) as (r & E & Hh)
    end;
    exists r; (split; [|split; [|split]]).
  - rewrite E. cbn [sent this _axios]. now rewrite <- app_assoc.
  - now rewrite gated_call_keeps_session.
  - intros Hx%js_toString_exact_returns. congruence.
  - intros _. split; [reflexivity | exact Hh].
  - rewrite E. cbn [sent this _axios]. now rewrite <- app_assoc.
  - now rewrite gated_call_keeps_session.
  - intros _. split; [reflexivity | exact Hh].
  - discriminate.
Qed.

Lemma authorize_opens_gate_witness :
  mock (Reply mockData_authorization) (_axios (this energomonitorUnauthorized))
    (authorize_request (JStr "test_user") (JStr "test_pw") JUndefined JUndefined
       JUndefined) = Reply mockData_authorization /\
  get_prop mockData_authorization "token" = inr (JStr "test-123456789") /\
  JStr "test-123456789" <> JUndefined /\
  is_authorize (call_getFeed (JNum 1)) = false /\
  reaches_gate (call_getFeed (JNum 1)) = true /\
  js_toString_exact (JStr "test-123456789") = true /\
  exists r,
    sent (invoke (call_getFeed (JNum 1)) (mock (Reply JNull))
            (authorize (JStr "test_user") (JStr "test_pw") JUndefined JUndefined
               JUndefined (mock (Reply mockData_authorization))
               energomonitorUnauthorized).2).2 =
    [(1%positive,
      authorize_request (JStr "test_user") (JStr "test_pw") JUndefined JUndefined
        JUndefined);
     (1%positive, r)] /\
    headers (config_of r) =
      Some [("Content-Type", "application/json");
            ("Authorization", "Bearer test-123456789")].
Proof.
  assert (JStr "test-123456789" <> JUndefined) as Htok by discriminate.
  split; [reflexivity|]. split; [reflexivity|]. split; [exact Htok|].
  split; [reflexivity|]. split; [reflexivity|]. split; [reflexivity|].
  destruct (authorize_opens_gate (JStr "test_user") (JStr "test_pw") JUndefined
              JUndefined JUndefined mockData_authorization (JStr "test-123456789")
              (call_getFeed (JNum 1)) (mock (Reply mockData_authorization))
              (mock (Reply JNull)) energomonitorUnauthorized
              eq_refl eq_refl Htok eq_refl eq_refl) as (r & E & _ & Hx & _).
  exists r. split; [exact E | exact (proj2 (Hx eq_refl))].
Defined.

(** An [authorize] call that fails does not authorize: on a session
    without a token, after the transport has failed [authorize], which
    rejects with the transport's error, a call of another method that
    comes to the gate is still turned away with the fixed message, and the
    request of [authorize] is the only one made. *)
Theorem failed_authorize_keeps_gate_shut
    (username password note resources validMinutes error : JsValue)
    (c : Call) (net net' : Transport) (st : State) :
  _token (this st) = JUndefined ->
  net (_axios (this st))
      (authorize_request username password note resources validMinutes)
  = Failure error ->
  is_authorize c = false ->
  reaches_gate c = true ->
  let st' := (authorize username password note resources validMinutes net st).2 in
  (authorize username password note resources validMinutes net st).1
  = Rejects error /\
  invoke c net' st' =
  (Rejects (JStr "Cannot call this method without setting the authorization token (in the constructor or using the authorize method)."),
   {| this := this st;
      sent := sent st ++
              [(_axios (this st),
                authorize_request username password note resources validMinutes)] |}).
Proof.
  intros Htok H Hc Hm%reaches_gate_marshals st'. subst st'. rewrite authorize_run. cbv zeta. rewrite H.
  split; [reflexivity|]. cbn [snd].
  rewrite invoke_without_token by assumption. now rewrite Hm.
Qed.

Lemma failed_authorize_keeps_gate_shut_witness :
  _token (this energomonitorUnauthorized) = JUndefined /\
  mock (Failure (JStr "401")) (_axios (this energomonitorUnauthorized))
    (authorize_request (JStr "test_user") (JStr "bad_pw") JUndefined JUndefined
       JUndefined) = Failure (JStr "401") /\
  is_authorize (call_getUser (JNum 1)) = false /\
  reaches_gate (call_getUser (JNum 1)) = true /\
  (invoke (call_getUser (JNum 1)) (mock (Reply JNull))
     (authorize (JStr "test_user") (JStr "bad_pw") JUndefined JUndefined JUndefined
        (mock (Failure (JStr "401"))) energomonitorUnauthorized).2).1
  = Rejects (JStr NOT_AUTHORIZED).
Proof.
  split; [reflexivity|]. split; [reflexivity|]. split; [reflexivity|].
  split; [reflexivity|].
  destruct (failed_authorize_keeps_gate_shut (JStr "test_user") (JStr "bad_pw")
              JUndefined JUndefined JUndefined (JStr "401") (call_getUser (JNum 1))
              (mock (Failure (JStr "401"))) (mock (Reply JNull))
              energomonitorUnauthorized eq_refl eq_refl eq_refl eq_refl) as [_ E].
  now rewrite E.
Defined.

(** ** Paths *)

Lemma chars_append (a b : string) : chars (a +:+ b) = (chars a ++ chars b)%list.
Proof.
  induction a as [|c a IH]; [reflexivity|].
  rewrite append_String. unfold chars in *. simpl. now rewrite IH.
Qed.

Lemma split_at_slash (a a' b b' : string) :
  ~ In "/"%char (chars a) -> ~ In "/"%char (chars a') ->
  a +:+ String "/" b = a' +:+ String "/" b' ->
  a = a' /\ b = b'.
Proof.
  revert a'. induction a as [|c a IH]; intros [|c' a'] Ha Ha' E.
  - injection E as ->. now split.
  - rewrite append_String in E. injection E as <- _.
    destruct Ha'. now left.
  - rewrite append_String in E. injection E as -> _.
    destruct Ha. now left.
  - rewrite !append_String in E. injection E as -> E.
    destruct (IH a') as [-> ->]; try assumption; [| |now split].
    + intros H. apply Ha. now right.
    + intros H. apply Ha'. now right.
Qed.

(** An identifier goes into the path as it is, slashes included, so an
    identifier that contains the rest of a longer path reaches the other
    endpoint: the call is, request and outcome, the call of the other
    method. *)
Theorem slash_in_id_reaches_other_endpoint
    (id id2 : string) (net : Transport) (st : State) :
  getFeed (JStr (id +:+ "/streams/" +:+ id2)) net st
  = getStream (JStr id) (JStr id2) net st /\
  getUser (JStr (id +:+ "/notifications/" +:+ id2)) net st
  = getNotification (JStr id) (JStr id2) net st /\
  getUser (JStr (id +:+ "/feeds")) net st = getFeeds (JStr id) net st /\
  getUser (JStr (id +:+ "/notification_count")) net st
  = getNotificationCount (JStr id) net st /\
  getFeed (JStr (id +:+ "/related_streams")) net st
  = getRelatedStreams (JStr id) net st.
Proof. repeat split. Qed.

(** With identifiers free of slashes it cannot happen: the path of a
    stream or of a notification gives back both identifiers (as the
    strings they are written as), and no feed's path is the path of a
    stream or of a feed's list of streams. *)
Theorem paths_of_slash_free_ids_are_distinct
    (id id' id2 id2' : JsValue) :
  ~ In "/"%char (chars (js_toString id)) ->
  ~ In "/"%char (chars (js_toString id')) ->
  (ENDPOINT_URLS.stream id id2 = ENDPOINT_URLS.stream id' id2' ->
   js_toString id = js_toString id' /\ js_toString id2 = js_toString id2') /\
  (ENDPOINT_URLS.notification id id2 = ENDPOINT_URLS.notification id' id2' ->
   js_toString id = js_toString id' /\ js_toString id2 = js_toString id2') /\
  ENDPOINT_URLS.feed id <> ENDPOINT_URLS.stream id' id2' /\
  ENDPOINT_URLS.feed id <> ENDPOINT_URLS.streams id' /\
  ENDPOINT_URLS.user id <> ENDPOINT_URLS.notification id' id2' /\
  ENDPOINT_URLS.user id <> ENDPOINT_URLS.feeds id'.
Proof.
  intros H H'.
  unfold ENDPOINT_URLS.stream, ENDPOINT_URLS.notification, ENDPOINT_URLS.feed,
    ENDPOINT_URLS.streams, ENDPOINT_URLS.user, ENDPOINT_URLS.feeds.
  set (a := js_toString id) in *. set (a' := js_toString id') in *.
  set (b := js_toString id2). set (b' := js_toString id2').
  clearbody a a' b b'.
  assert (forall rest, ~ a = a' +:+ String "/" rest) as No.
  { intros rest ->. apply H. rewrite chars_append. apply in_or_app. right. now left. }
  split; [|split; [|split; [|split; [|split]]]].
  - intros E. injection E as E.
    destruct (split_at_slash a a' _ _ H H' E) as [-> E']. now injection E'.
  - intros E. injection E as E.
    destruct (split_at_slash a a' _ _ H H' E) as [-> E']. now injection E'.
  - intros E. injection E as E. exact (No _ E).
  - intros E. injection E as E. exact (No _ E).
  - intros E. injection E as E. exact (No _ E).
  - intros E. injection E as E. exact (No _ E).
Qed.

Lemma paths_of_slash_free_ids_are_distinct_witness :
  ~ In "/"%char (chars (js_toString (JNum 1))) /\
  ~ In "/"%char (chars (js_toString (JStr "embahs"))) /\
  ENDPOINT_URLS.feed (JNum 1) <> ENDPOINT_URLS.streams (JStr "embahs").
Proof.
  assert (~ In "/"%char (chars (js_toString (JNum 1)))) as H.
  { vm_compute. intros [E|[]]. discriminate E. }
  assert (~ In "/"%char (chars (js_toString (JStr "embahs")))) as H'.
  { vm_compute. intros [E|[E|[E|[E|[E|[E|[]]]]]]]; discriminate E. }
  split; [exact H|]. split; [exact H'|].
  exact (proj1 (proj2 (proj2 (proj2
           (paths_of_slash_free_ids_are_distinct (JNum 1) (JStr "embahs") JNull JNull
              H H'))))).
Defined.

(** ** More on the query string of getStreams *)

Lemma stringify_omits_undefined (inputs : list (string * JsValue)) :
  flat_map (fun kv => qs.stringify kv.1 kv.2) (omitUndefinedBuilder inputs) =
  flat_map (fun kv => qs.stringify kv.1 kv.2) inputs.
Proof.
  unfold omitUndefinedBuilder.
  induction inputs as [|[k v] l IH]; [reflexivity|].
  cbn [List.filter flat_map fst snd]. destruct v; cbn [is_defined flat_map fst snd];
    rewrite IH; reflexivity.
Qed.

(** The query of [getStreams], for arguments of any shape. *)
Lemma getStreams_query (types channels : JsValue)
    (dataTimeFrom dataTimeTo : option JsDate) :
  qs.stringify_no_indices
    (getStreams_params types channels dataTimeFrom dataTimeTo) =
  String.concat "&"
    (qs.stringify "type" types ++ qs.stringify "channel" channels ++
     qs.stringify "data_time_from" (converted dateToTimestamp dataTimeFrom) ++
     qs.stringify "data_time_to" (converted dateToTimestamp dataTimeTo))%list.
Proof.
  rewrite getStreams_params_built. unfold qs.stringify_no_indices.
  rewrite stringify_omits_undefined. cbn [flat_map fst snd].
  now rewrite app_nil_r.
Qed.

(** [types] and [channels] may be given as one value or as a list: a
    single value, of whatever kind, leaves in the query string exactly what
    the list holding only that value leaves. *)
Theorem single_value_is_singleton_list
    (feedId types channels : JsValue) (dataTimeFrom dataTimeTo : option JsDate)
    (default : JsObject -> string) (net : Transport) (st : State) :
  _token (this st) <> JUndefined ->
  exists config config',
    sent (getStreams feedId types channels dataTimeFrom dataTimeTo net st).2 =
    (sent st ++
     [(_axios (this st),
       axios_get ("/feeds/" +:+ js_toString feedId +:+ "/streams") config)])%list /\
    sent (getStreams feedId (JArr [types]) (JArr [channels]) dataTimeFrom dataTimeTo
            net st).2 =
    (sent st ++
     [(_axios (this st),
       axios_get ("/feeds/" +:+ js_toString feedId +:+ "/streams") config')])%list /\
    query_string default config = query_string default config'.
Proof.
  intros Htok. eexists. eexists.
  split; [apply getStreams_sends, Htok|]. split; [apply getStreams_sends, Htok|].
  unfold query_string. cbn [params paramsSerializer].
  rewrite !getStreams_query. cbn [qs.stringify flat_map].
  now rewrite !app_nil_r.
Qed.

Lemma single_value_is_singleton_list_witness :
  _token (this energomonitorAuthorized) <> JUndefined /\
  exists config config',
    sent (getStreams (JNum 1) (JStr "raw") (JNum 2) None None (mock (Reply (JArr [])))
            energomonitorAuthorized).2 =
    [(1%positive, axios_get "/feeds/1/streams" config)] /\
    sent (getStreams (JNum 1) (JArr [JStr "raw"]) (JArr [JNum 2]) None None
            (mock (Reply (JArr []))) energomonitorAuthorized).2 =
    [(1%positive, axios_get "/feeds/1/streams" config')] /\
    query_string (fun _ => "") config = query_string (fun _ => "") config'.
Proof.
  assert (_token (this energomonitorAuthorized) <> JUndefined) as H by discriminate.
  split; [exact H|].
  exact (single_value_is_singleton_list (JNum 1) (JStr "raw") (JNum 2) None None
           (fun _ => "") (mock (Reply (JArr []))) energomonitorAuthorized H).
Defined.

Lemma JsValue_nested_ind (P : JsValue -> Prop) :
  P JUndefined -> P JNull -> (forall b, P (JBool b)) -> (forall n, P (JNum n)) ->
  P JNaN -> (forall s, P (JStr s)) ->
  (forall l, Forall P l -> P (JArr l)) ->
  (forall o, Forall (fun kv => P kv.2) o -> P (JObj o)) ->
  forall v, P v.
Proof.
  intros Hu Hn Hb Hz Hnan Hs Ha Ho. fix IH 1.
  intros [ | |b|n| |s|l|o];
    [exact Hu | exact Hn | apply Hb | apply Hz | exact Hnan | apply Hs | | ].
  - apply Ha. induction l as [|x l IHl]; constructor; [apply IH | exact IHl].
  - apply Ho. induction o as [|[k x] o IHo]; constructor; [apply IH | exact IHo].
Qed.

Lemma hex_digit_unreserved (n : N) : qs.unreserved (qs.hex_digit n) = true.
Proof. unfold qs.hex_digit. repeat case_match; reflexivity. Qed.

Lemma encode_chars (s : string) :
  Forall (fun c => query_char c = true) (chars (qs.encode s)).
Proof.
  unfold chars. induction s as [|c s IH]; [constructor|].
  cbn [qs.encode]. destruct (qs.unreserved c) eqn:E.
  - constructor; [|exact IH]. unfold query_char. now rewrite E.
  - repeat constructor; try exact IH; unfold query_char;
      now rewrite ?hex_digit_unreserved.
Qed.

Lemma stringify_chars (v : JsValue) :
  forall prefix,
    Forall (fun piece => Forall (fun c => query_char c = true) (chars piece))
      (qs.stringify prefix v).
Proof.
  assert (forall p, Forall (fun c => query_char c = true)
                      (chars (qs.encode p +:+ "="))) as K.
  { intros p. rewrite chars_append. apply Forall_app. split; [apply encode_chars|].
    now repeat constructor. }
  assert (forall p x, Forall (fun c => query_char c = true)
                        (chars (qs.encode p +:+ "=" +:+ qs.encode x))) as KV.
  { intros p x. rewrite chars_append.
    apply Forall_app. split; [apply encode_chars|].
    change ("=" +:+ qs.encode x) with (String "=" (qs.encode x)).
    constructor; [reflexivity | apply encode_chars]. }
  induction v using JsValue_nested_ind; intros prefix; cbn [qs.stringify];
    try (repeat constructor; first [apply K | apply KV]).
  - induction H as [|x l Hx _ IHl]; cbn [flat_map]; [constructor|].
    apply Forall_app. split; [apply Hx | exact IHl].
  - induction H as [|[k x] o Hx _ IHo]; cbn [flat_map]; [constructor|].
    apply Forall_app. split; [apply Hx | exact IHo].
Qed.

Lemma concat_chars (pieces : list string) :
  Forall (fun piece => Forall (fun c => query_char c = true) (chars piece)) pieces ->
  Forall (fun c => query_char c = true) (chars (String.concat "&" pieces)).
Proof.
  induction 1 as [|p l Hp Hl IH]; [constructor|].
  destruct l as [|q l]; [exact Hp|].
  change (String.concat "&" (p :: q :: l))
    with (p +:+ "&" +:+ String.concat "&" (q :: l)).
  rewrite chars_append. apply Forall_app. split; [exact Hp|].
  change ("&" +:+ String.concat "&" (q :: l))
    with (String "&" (String.concat "&" (q :: l))).
  constructor; [reflexivity | exact IH].
Qed.

(** Whatever is passed as [types] and [channels], strings with any
    characters, nested lists or objects, the query string of [getStreams]
    is made of unreserved characters, percent escapes, [=] and [&] only: no
    bracket, comma, space or quote goes out unescaped. *)
Theorem getStreams_query_is_escaped
    (feedId types channels : JsValue) (dataTimeFrom dataTimeTo : option JsDate)
    (default : JsObject -> string) (net : Transport) (st : State) :
  _token (this st) <> JUndefined ->
  exists config,
    sent (getStreams feedId types channels dataTimeFrom dataTimeTo net st).2 =
    (sent st ++
     [(_axios (this st),
       axios_get ("/feeds/" +:+ js_toString feedId +:+ "/streams") config)])%list /\
    Forall (fun c => query_char c = true) (chars (query_string default config)).
Proof.
  intros Htok. eexists. split; [apply getStreams_sends, Htok|].
  unfold query_string. cbn [params paramsSerializer].
  rewrite getStreams_query. apply concat_chars.
  repeat (apply Forall_app; split); apply stringify_chars.
Qed.

Lemma getStreams_query_is_escaped_witness :
  _token (this energomonitorAuthorized) <> JUndefined /\
  exists config,
    sent (getStreams (JNum 1) (JArr [JStr "a[b],c d"]) JUndefined None None
            (mock (Reply (JArr []))) energomonitorAuthorized).2 =
    [(1%positive, axios_get "/feeds/1/streams" config)] /\
    Forall (fun c => query_char c = true)
      (chars (query_string (fun _ => "type[]=a[b],c d") config)).
Proof.
  assert (_token (this energomonitorAuthorized) <> JUndefined) as H by discriminate.
  split; [exact H|].
  exact (getStreams_query_is_escaped (JNum 1) (JArr [JStr "a[b],c d"]) JUndefined
           None None (fun _ => "type[]=a[b],c d") (mock (Reply (JArr [])))
           energomonitorAuthorized H).
Defined.

Example getStreams_escapes :
  qs.stringify_no_indices (getStreams_params (JArr [JStr "a[b],c d"]) JUndefined
                             None None)
  = "type=a%5Bb%5D%2Cc%20d".
Proof. vm_compute. reflexivity. Qed.

(** ** More on created_at_from *)

Lemma append_inj_length (a a' b b' : string) :
  String.length a = String.length a' ->
  a +:+ b = a' +:+ b' -> a = a' /\ b = b'.
Proof.
  revert a'. induction a as [|c a IH]; intros [|c' a'] L E; try discriminate L.
  - now split.
  - rewrite !append_String in E. injection E as -> E.
    injection L as L. destruct (IH a' L E) as [-> ->]. now split.
Qed.

Lemma pad_inj (w : nat) (n n' : Z) :
  0 <= n < 10 ^ Z.of_nat w -> 0 <= n' < 10 ^ Z.of_nat w ->
  ES.pad w n = ES.pad w n' -> n = n'.
Proof.
  intros H H' E.
  pose proof (pad_digits_value w n 0 H) as V.
  pose proof (pad_digits_value w n' 0 H') as V'.
  rewrite E in V. lia.
Qed.

Lemma year_string_length (y : Z) :
  String.length (ES.year_string y) = if (0 <=? y) && (y <=? 9999) then 4%nat else 7%nat.
Proof.
  unfold ES.year_string. destruct ((0 <=? y) && (y <=? 9999)).
  - apply pad_length.
  - destruct (y <? 0); now rewrite length_append, pad_length.
Qed.

Lemma year_string_inj (y y' : Z) :
  Z.abs y < 1000000 -> Z.abs y' < 1000000 ->
  ES.year_string y = ES.year_string y' -> y = y'.
Proof.
  intros B B' E.
  pose proof (f_equal String.length E) as L. rewrite !year_string_length in L.
  unfold ES.year_string in E.
  destruct ((0 <=? y) && (y <=? 9999)) eqn:S, ((0 <=? y') && (y' <=? 9999)) eqn:S';
    try discriminate L.
  - apply andb_prop in S as [?%Z.leb_le ?%Z.leb_le].
    apply andb_prop in S' as [?%Z.leb_le ?%Z.leb_le].
    apply (pad_inj 4); simpl; try lia. exact E.
  - apply append_inj_length in E as [Esign E];
      [|destruct (y <? 0), (y' <? 0); reflexivity].
    apply (pad_inj 6) in E; simpl; try lia.
    destruct (Z.ltb_spec y 0), (Z.ltb_spec y' 0); try discriminate Esign; lia.
Qed.

Section IsoFields.
Import ES.

(** The year of a valid date has at most six digits. *)
Lemma YearFromTime_bound (t : Z) :
  Z.abs t <= 8640000000000000 -> -271821 <= YearFromTime t <= 275760.
Proof.
  intros H. split.
  - apply YearFromTime_largest.
    assert (TimeFromYear (-271821) <= -8640000000000000) by (vm_compute; discriminate).
    lia.
  - destruct (Z.le_gt_cases 275761 (YearFromTime t)) as [G|G]; [|lia].
    apply YearFromTime_largest in G.
    assert (8640000000000000 < TimeFromYear 275761) by reflexivity.
    lia.
Qed.

Lemma iso_string_inj (y mo d h mi s ms y' mo' d' h' mi' s' ms' : Z) :
  Z.abs y < 1000000 -> Z.abs y' < 1000000 ->
  0 <= mo < 100 -> 0 <= mo' < 100 -> 0 <= d < 100 -> 0 <= d' < 100 ->
  0 <= h < 100 -> 0 <= h' < 100 -> 0 <= mi < 100 -> 0 <= mi' < 100 ->
  0 <= s < 100 -> 0 <= s' < 100 -> 0 <= ms < 1000 -> 0 <= ms' < 1000 ->
  iso_string y mo d h mi s ms = iso_string y' mo' d' h' mi' s' ms' ->
  y = y' /\ mo = mo' /\ d = d' /\ h = h' /\ mi = mi' /\ s = s' /\ ms = ms'.
Proof.
  intros By By' ? ? ? ? ? ? ? ? ? ? ? ? E. unfold iso_string in E.
  assert (String.length (year_string y) = String.length (year_string y')) as L.
  { apply (f_equal String.length) in E.
    rewrite !length_append, !pad_length in E. lia. }
  apply append_inj_length in E as [Ey E]; [|exact L].
  apply append_inj_length in E as [_ E]; [|reflexivity].
  apply append_inj_length in E as [Emo E]; [|now rewrite !pad_length].
  apply append_inj_length in E as [_ E]; [|reflexivity].
  apply append_inj_length in E as [Ed E]; [|now rewrite !pad_length].
  apply append_inj_length in E as [_ E]; [|reflexivity].
  apply append_inj_length in E as [Eh E]; [|now rewrite !pad_length].
  apply append_inj_length in E as [_ E]; [|reflexivity].
  apply append_inj_length in E as [Emi E]; [|now rewrite !pad_length].
  apply append_inj_length in E as [_ E]; [|reflexivity].
  apply append_inj_length in E as [Es E]; [|now rewrite !pad_length].
  apply append_inj_length in E as [_ E]; [|reflexivity].
  apply append_inj_length in E as [Ems _]; [|now rewrite !pad_length].
  apply year_string_inj in Ey; [|assumption..].
  apply (pad_inj 2) in Emo; [|simpl; lia..].
  apply (pad_inj 2) in Ed; [|simpl; lia..].
  apply (pad_inj 2) in Eh; [|simpl; lia..].
  apply (pad_inj 2) in Emi; [|simpl; lia..].
  apply (pad_inj 2) in Es; [|simpl; lia..].
  apply (pad_inj 3) in Ems; [|simpl; lia..].
  repeat split; assumption.
Qed.
End IsoFields.

(** [created_at_from] keeps the date to the millisecond: two valid dates
    for which [getNotifications] builds the same query are the same
    instant, where the timestamps of the other methods merge all dates that
    round to one second. *)
Theorem created_at_from_tells_dates_apart (t1 t2 : Z) :
  Z.abs t1 <= 8640000000000000 ->
  Z.abs t2 <= 8640000000000000 ->
  (getNotifications_params (Some (DateOf t1))
   = getNotifications_params (Some (DateOf t2)) -> t1 = t2) /\
  (getStreamData_params (Some (DateOf t1)) None JUndefined
   = getStreamData_params (Some (DateOf t2)) None JUndefined <->
   (t1 + 500) / 1000 = (t2 + 500) / 1000).
Proof.
  intros B1 B2. split.
  - rewrite !getNotifications_params_valid. intros [= E].
    pose proof (YearFromTime_bound t1 B1). pose proof (YearFromTime_bound t2 B2).
    pose proof (MonthFromTime_range t1). pose proof (MonthFromTime_range t2).
    pose proof (DateFromTime_range t1). pose proof (DateFromTime_range t2).
    pose proof (time_fields_range t1) as (? & ? & ? & ?).
    pose proof (time_fields_range t2) as (? & ? & ? & ?).
    apply iso_string_inj in E; try lia.
    destruct E as (Ey & Emo & Ed & Eh & Emi & Es & Ems).
    rewrite <- (MakeDate_inv t1), <- (MakeDate_inv t2).
    replace (ES.MonthFromTime t1) with (ES.MonthFromTime t2) by lia.
    now rewrite Ey, Ed, Eh, Emi, Es, Ems.
  - change (getStreamData_params (Some (DateOf t1)) None JUndefined)
      with [("time_from", dateToTimestamp (DateOf t1))].
    change (getStreamData_params (Some (DateOf t2)) None JUndefined)
      with [("time_from", dateToTimestamp (DateOf t2))].
    rewrite !dateToTimestamp_eq. split; [intros [= E] | intros E]; congruence.
Qed.

Lemma created_at_from_tells_dates_apart_witness :
  Z.abs 1492878600000 <= 8640000000000000 /\
  Z.abs 1492878600001 <= 8640000000000000 /\
  getNotifications_params (Some (DateOf 1492878600000))
  <> getNotifications_params (Some (DateOf 1492878600001)) /\
  getStreamData_params (Some (DateOf 1492878600000)) None JUndefined
  = getStreamData_params (Some (DateOf 1492878600001)) None JUndefined.
Proof.
  assert (Z.abs 1492878600000 <= 8640000000000000) as B1 by (simpl; lia).
  assert (Z.abs 1492878600001 <= 8640000000000000) as B2 by (simpl; lia).
  split; [exact B1|]. split; [exact B2|].
  destruct (created_at_from_tells_dates_apart _ _ B1 B2) as [I R].
  split.
  - intros E. apply I in E. discriminate E.
  - apply R. reflexivity.
Defined.

(** ** A session that never authorizes *)

(** A session without a token stays silent for as long as [authorize] is
    not called: whatever other methods are called on it, in whatever order,
    no request is made and the session does not change. *)
Theorem unauthorized_session_stays_silent
    (calls : list (Transport * Call)) (st : State) :
  _token (this st) = JUndefined ->
  Forall (fun nc => is_authorize nc.2 = false) calls ->
  run calls st = st.
Proof.
  intros Htok H. revert st Htok.
  induction H as [|[net c] calls Hc _ IH]; intros st Htok; [reflexivity|].
  cbn [run]. simpl in Hc. rewrite (invoke_without_token c net st Hc Htok).
  now apply IH.
Qed.

Lemma unauthorized_session_stays_silent_witness :
  _token (this energomonitorUnauthorized) = JUndefined /\
  Forall (fun nc : Transport * Call => is_authorize nc.2 = false)
    [(mock (Reply JNull), call_getUser (JNum 1));
     (mock (Reply JNull), call_updateNotification (JNum 1) (JNum 2) JUndefined);
     (mock (Reply JNull), call_getNotifications (JNum 1) (Some InvalidDate))] /\
  run [(mock (Reply JNull), call_getUser (JNum 1));
       (mock (Reply JNull), call_updateNotification (JNum 1) (JNum 2) JUndefined);
       (mock (Reply JNull), call_getNotifications (JNum 1) (Some InvalidDate))]
    energomonitorUnauthorized
  = energomonitorUnauthorized.
Proof.
  assert (Forall (fun nc : Transport * Call => is_authorize nc.2 = false)
            [(mock (Reply JNull), call_getUser (JNum 1));
             (mock (Reply JNull), call_updateNotification (JNum 1) (JNum 2) JUndefined);
             (mock (Reply JNull), call_getNotifications (JNum 1) (Some InvalidDate))])
    as H by (repeat constructor).
  split; [reflexivity|]. split; [exact H|].
  exact (unauthorized_session_stays_silent _ energomonitorUnauthorized eq_refl H).
Defined.
